(** * GreenPulse: the synthetic series generator and the feature pipeline

    A shallow embedding of [GREENPULSE/app.py].

    Conventions of the embedding.
    - Python floats are idealised as exact rationals ([Q]): every formula of
      the source is kept with its constants and its order of evaluation, and
      the binary rounding of the float operations is left out. Where a
      statement would hold of the rationals only, the pollutant values are
      also given on binary64 doubles ([b64_co] and the like).
    - [random.random()] and [datetime.now()] read an oracle (a sequence of
      draws, a sequence of clock values) at a position kept in the state.
    - A naive [datetime] is the number of microseconds since
      0001-01-01 00:00:00, the quantity CPython's own datetime arithmetic
      works on.
    - Exceptions are the left summand of a state-and-error monad; the state
      also logs every call of [scaler.transform] and [model.predict]. *)

From Stdlib Require Import ZArith QArith Qround Qminmax Qabs.
From Stdlib Require Import List String Ascii DecimalString Bool Lia Lqa.
From Stdlib Require Import Floats.
Import ListNotations.

Local Open Scope Q_scope.

(** ** Numbers *)

(** [x < y] as a test. *)
Definition Qlt_bool (x y : Q) : bool :=
  (Qnum x * QDen y <? Qnum y * QDen x)%Z.

(** Python's [min(a, b)]: the first argument unless the second is smaller. *)
Definition py_min (a b : Q) : Q := if Qlt_bool b a then b else a.

(** Python's [max(a, b)]: the first argument unless the second is larger. *)
Definition py_max (a b : Q) : Q := if Qlt_bool a b then b else a.

(** Nearest integer, ties to the even one (Python's [round]). *)
Definition round_half_even (x : Q) : Z :=
  let f := Qfloor x in
  match Qcompare (x - inject_Z f) (1 # 2) with
  | Lt => f
  | Gt => (f + 1)%Z
  | Eq => if Z.even f then f else (f + 1)%Z
  end.

(** [round(x, ndigits)] for [ndigits >= 0]. *)
Definition py_round (x : Q) (ndigits : nat) : Q :=
  let p := Pos.pow 10 (Pos.of_nat ndigits) in
  match ndigits with
  | O => inject_Z (round_half_even x)
  | S _ => round_half_even (x * inject_Z (Zpos p)) # p
  end.

(** [numpy.mean] of a list of numbers. *)
Definition np_mean (l : list Q) : Q :=
  fold_left Qplus l 0 / inject_Z (Z.of_nat (List.length l)).

(** ** Exceptions *)

Inductive exn : Type :=
| OverflowError (msg : string)
| IndexError (msg : string)
| ZeroDivisionError (msg : string)
| ExternalError (msg : string).  (* raised inside the model or the scaler *)

(** [str(e)] *)
Definition exn_str (e : exn) : string :=
  match e with
  | OverflowError m | IndexError m | ZeroDivisionError m | ExternalError m => m
  end.

(** [a / b] on floats: raises on a zero divisor. *)
Definition truediv (a b : Q) : exn + Q :=
  if Qeq_bool b 0 then inl (ZeroDivisionError "float division by zero")
  else inr (a / b).

(** ** Sequences *)

(** [l[-k]] for [k >= 1]. *)
Definition index_from_end {A : Type} (l : list A) (k : nat) : exn + A :=
  match nth_error (rev l) (k - 1) with
  | Some x => inr x
  | None => inl (IndexError "list index out of range")
  end.

(** [a[0]] on a numpy array. *)
Definition index_first {A : Type} (l : list A) : exn + A :=
  match l with
  | x :: _ => inr x
  | [] => inl (IndexError "index 0 is out of bounds for axis 0 with size 0")
  end.

(** [l[-k:]] for [k >= 1]: the last [k] elements, all of [l] when it is shorter. *)
Definition slice_last {A : Type} (l : list A) (k : nat) : list A :=
  skipn (List.length l - k) l.

(** [range(n, 0, -1)]: [n, n-1, ..., 1]. *)
Definition range_down (n : Z) : list Z :=
  map (fun k => (n - Z.of_nat k)%Z) (seq 0 (Z.to_nat n)).

(** ** Naive datetimes *)

Definition datetime : Type := Z.

Definition us_per_second : Z := 1000000.
Definition us_per_minute : Z := 60 * us_per_second.
Definition us_per_hour : Z := 3600 * us_per_second.
Definition us_per_day : Z := 86400 * us_per_second.

(** [date.max.toordinal()], the ordinal of 9999-12-31. *)
Definition MAXORDINAL : Z := 3652059.

Definition valid_datetime (t : datetime) : Prop :=
  (0 <= t < MAXORDINAL * us_per_day)%Z.

Definition toordinal (t : datetime) : Z := (t / us_per_day + 1)%Z.
Definition dt_hour (t : datetime) : Z := ((t / us_per_hour) mod 24)%Z.
Definition dt_minute (t : datetime) : Z := ((t / us_per_minute) mod 60)%Z.
Definition dt_second (t : datetime) : Z := ((t / us_per_second) mod 60)%Z.

(** [weekday()]: Monday is 0. *)
Definition dt_weekday (t : datetime) : Z := ((toordinal t + 6) mod 7)%Z.

Definition is_leap (year : Z) : bool :=
  ((year mod 4 =? 0) && (negb (year mod 100 =? 0) || (year mod 400 =? 0)))%Z.

Definition days_before_year (year : Z) : Z :=
  let y := (year - 1)%Z in (y * 365 + y / 4 - y / 100 + y / 400)%Z.

Definition DAYS_IN_MONTH : list Z :=
  [-1; 31; 28; 31; 30; 31; 30; 31; 31; 30; 31; 30; 31]%Z.

Definition DAYS_BEFORE_MONTH : list Z :=
  [-1; 0; 31; 59; 90; 120; 151; 181; 212; 243; 273; 304; 334]%Z.

Definition days_before_month (year month : Z) : Z :=
  (nth (Z.to_nat month) DAYS_BEFORE_MONTH 0
   + (if (2 <? month) && is_leap year then 1 else 0))%Z.

(** [_ymd2ord]: the ordinal of a calendar day, 0001-01-01 being day 1. *)
Definition ymd2ord (year month day : Z) : Z :=
  (days_before_year year + days_before_month year month + day)%Z.

Definition DI400Y : Z := 146097.
Definition DI100Y : Z := 36524.
Definition DI4Y : Z := 1461.

(** [_ord2ymd]: year, month and day of an ordinal. *)
Definition ord2ymd (ordinal : Z) : Z * Z * Z :=
  let n := (ordinal - 1)%Z in
  let n400 := (n / DI400Y)%Z in
  let n := (n mod DI400Y)%Z in
  let n100 := (n / DI100Y)%Z in
  let n := (n mod DI100Y)%Z in
  let n4 := (n / DI4Y)%Z in
  let n := (n mod DI4Y)%Z in
  let n1 := (n / 365)%Z in
  let n := (n mod 365)%Z in
  let year := (n400 * 400 + 1 + n100 * 100 + n4 * 4 + n1)%Z in
  if ((n1 =? 4) || (n100 =? 4))%Z then ((year - 1)%Z, 12%Z, 31%Z)
  else
    let leapyear := ((n1 =? 3) && (negb (n4 =? 24) || (n100 =? 3)))%Z in
    let month := Z.shiftr (n + 50) 5 in
    let preceding :=
      (nth (Z.to_nat month) DAYS_BEFORE_MONTH 0
       + (if (2 <? month) && leapyear then 1 else 0))%Z in
    if (n <? preceding)%Z then
      let month := (month - 1)%Z in
      let preceding :=
        (preceding
         - (nth (Z.to_nat month) DAYS_IN_MONTH 0
            + (if (month =? 2) && leapyear then 1 else 0)))%Z in
      (year, month, (n - preceding + 1)%Z)
    else (year, month, (n - preceding + 1)%Z).

Definition dt_year (t : datetime) : Z := fst (fst (ord2ymd (toordinal t))).
Definition dt_month (t : datetime) : Z := snd (fst (ord2ymd (toordinal t))).
Definition dt_day (t : datetime) : Z := snd (ord2ymd (toordinal t)).

(** The constructor [datetime(year, month, day, hour, minute, second)]. *)
Definition mk_datetime (year month day hour minute second : Z) : datetime :=
  ((ymd2ord year month day - 1) * us_per_day
   + hour * us_per_hour + minute * us_per_minute + second * us_per_second)%Z.

(** [timedelta(hours=i)], in microseconds; the day count is bounded. *)
Definition timedelta_hours (i : Z) : exn + Z :=
  if (999999999 <? Z.abs (i / 24))%Z
  then inl (OverflowError
              ("days=" ++ NilZero.string_of_int (Z.to_int (i / 24))
               ++ "; must have magnitude <= 999999999")%string)
  else inr (i * us_per_hour)%Z.

(** [t - delta]: the result has to be a date of the years 1 to 9999. *)
Definition datetime_sub (t : datetime) (delta : Z) : exn + datetime :=
  let r := (t - delta)%Z in
  if ((0 <=? r) && (r <? MAXORDINAL * us_per_day))%Z then inr r
  else inl (OverflowError "date value out of range").

(** ** Formatting *)

Definition digit (d : Z) : string :=
  String (ascii_of_nat (48 + Z.to_nat (d mod 10))) EmptyString.

(** Two decimal digits, zero padded ([%m], [%d], [%H], [%M], [%S]). *)
Definition fmt2 (n : Z) : string :=
  (digit (n / 10) ++ digit n)%string.

(** Four decimal digits, zero padded ([%Y]). *)
Definition fmt4 (n : Z) : string :=
  (digit (n / 1000) ++ digit (n / 100) ++ digit (n / 10) ++ digit n)%string.

(** [strftime('%Y-%m-%d %H:%M:%S')] *)
Definition strftime_full (t : datetime) : string :=
  (fmt4 (dt_year t) ++ "-" ++ fmt2 (dt_month t) ++ "-" ++ fmt2 (dt_day t)
   ++ " " ++ fmt2 (dt_hour t) ++ ":" ++ fmt2 (dt_minute t)
   ++ ":" ++ fmt2 (dt_second t))%string.

(** [strftime('%H:%M')] *)
Definition strftime_hm (t : datetime) : string :=
  (fmt2 (dt_hour t) ++ ":" ++ fmt2 (dt_minute t))%string.

(** ** The environment and the state *)

(** A 2-D array, as [numpy] hands it to the scaler and the model. *)
Definition matrix : Type := list (list Q).

(** The loaded artifacts: opaque capabilities that may raise. *)
Definition transformer : Type := matrix -> exn + matrix.
Definition predictor : Type := matrix -> exn + list Q.

Record env : Type := mkEnv {
  draws : nat -> Q;            (* successive values of [random.random()] *)
  clock : nat -> datetime;     (* successive values of [datetime.now()] *)
  model : option predictor;    (* [None] when loading failed *)
  scaler : option transformer
}.

Inductive call : Type :=
| CallTransform (x : matrix)
| CallPredict (x : matrix).

Record world : Type := mkWorld {
  rng_pos : nat;
  clock_pos : nat;
  calls : list call
}.

(** ** The monad: state, and exceptions that keep the state *)

Definition M (A : Type) : Type := world -> (exn + A) * world.

Definition ret {A : Type} (a : A) : M A := fun w => (inr a, w).

Definition bind {A B : Type} (m : M A) (k : A -> M B) : M B :=
  fun w =>
    match m w with
    | (inl e, w') => (inl e, w')
    | (inr a, w') => k a w'
    end.

Definition lift {A : Type} (r : exn + A) : M A := fun w => (r, w).

Notation "x <- m ;; k" := (bind m (fun x => k))
  (at level 61, m at next level, right associativity).

(** [for x in xs: s = body(x, s)] *)
Fixpoint for_each {S : Type} (xs : list Z) (body : Z -> S -> M S) (s : S) : M S :=
  match xs with
  | [] => ret s
  | x :: xs' => s' <- body x s ;; for_each xs' body s'
  end.

(** [random.random()] *)
Definition random (e : env) : M Q :=
  fun w => (inr (draws e (rng_pos w)),
            mkWorld (S (rng_pos w)) (clock_pos w) (calls w)).

(** [random.uniform(a, b)] is [a + (b - a) * random()]. *)
Definition uniform (e : env) (a b : Q) : M Q :=
  u <- random e ;; ret (a + (b - a) * u).

(** [datetime.now()] *)
Definition datetime_now (e : env) : M datetime :=
  fun w => (inr (clock e (clock_pos w)),
            mkWorld (rng_pos w) (S (clock_pos w)) (calls w)).

(** [scaler.transform(x)] *)
Definition scaler_transform (s : transformer) (x : matrix) : M matrix :=
  fun w => (s x, mkWorld (rng_pos w) (clock_pos w) (calls w ++ [CallTransform x])).

(** [model.predict(x)] *)
Definition model_predict (m : predictor) (x : matrix) : M (list Q) :=
  fun w => (m x, mkWorld (rng_pos w) (clock_pos w) (calls w ++ [CallPredict x])).

(** ** [generate_historical_data] *)

(** One entry of [data]. *)
Record Reading : Type := mkReading {
  timestamp : string;
  hour : string;
  co : Q;
  c6h6 : Q;
  nox : Q;
  no2 : Q;
  temp : Q;
  rh : Q;
  score : Q
}.

(** The local variables of one iteration of the loop, before they are
    rounded and formatted into the entry. *)
Record Sample : Type := mkSample {
  s_timestamp : datetime;
  s_co : Q;
  s_c6h6 : Q;
  s_nox : Q;
  s_no2 : Q;
  s_temp : Q;
  s_rh : Q;
  s_score : Q
}.

Definition base_co : Q := 2.5.
Definition base_c6h6 : Q := 8.0.
Definition base_nox : Q := 200.
Definition base_no2 : Q := 110.
Definition base_temp : Q := 22.
Definition base_rh : Q := 50.

(** Lines 39-44: the traffic pattern by hour of the day. *)
Definition traffic_factor (hour : Z) : Q :=
  if (((7 <=? hour) && (hour <=? 9)) || ((17 <=? hour) && (hour <=? 19)))%Z
  then 1.5
  else if ((22 <=? hour) || (hour <=? 5))%Z then 0.6
  else 1.0.

(** Line 57. *)
Definition pollutant_avg (co c6h6 nox no2 : Q) : Q :=
  (co / 5 + c6h6 / 15 + nox / 400 + no2 / 200) / 4.

(** Line 58, before the clamp. *)
Definition raw_score (co c6h6 nox no2 : Q) : Q :=
  10 * (1 - pollutant_avg co c6h6 nox no2).

(** Line 58: [max(0, min(10, ...))]. *)
Definition emission_score (co c6h6 nox no2 : Q) : Q :=
  py_max 0 (py_min 10 (raw_score co c6h6 nox no2)).

(** Lines 35-58: the body of the loop up to the score. *)
Definition sample_hour (e : env) (current_time : datetime) (i : Z) : M Sample :=
  delta <- lift (timedelta_hours i) ;;
  timestamp <- lift (datetime_sub current_time delta) ;;
  let hour := dt_hour timestamp in
  let traffic_factor := traffic_factor hour in
  noise <- uniform e 0.85 1.15 ;;
  let co := base_co * traffic_factor * noise in
  let c6h6 := base_c6h6 * traffic_factor * noise in
  let nox := base_nox * traffic_factor * noise in
  let no2 := base_no2 * traffic_factor * noise in
  dt <- uniform e (-3) 3 ;;
  let temp := base_temp + dt in
  dh <- uniform e (-10) 10 ;;
  let rh := base_rh + dh in
  let score := emission_score co c6h6 nox no2 in
  ret (mkSample timestamp co c6h6 nox no2 temp rh score).

(** Lines 60-70: the entry appended to [data]. *)
Definition to_reading (s : Sample) : Reading :=
  {| timestamp := strftime_full (s_timestamp s);
     hour := strftime_hm (s_timestamp s);
     co := py_round (s_co s) 2;
     c6h6 := py_round (s_c6h6 s) 2;
     nox := py_round (s_nox s) 2;
     no2 := py_round (s_no2 s) 2;
     temp := py_round (s_temp s) 1;
     rh := py_round (s_rh s) 1;
     score := py_round (s_score s) 2 |}.

(** Lines 35-70: one iteration, which appends its entry to [data]. *)
Definition loop_body (e : env) (current_time : datetime) (i : Z)
    (data : list Reading) : M (list Reading) :=
  s <- sample_hour e current_time i ;;
  ret (data ++ [to_reading s]).

Definition generate_historical_data (e : env) (hours : Z) : M (list Reading) :=
  current_time <- datetime_now e ;;
  for_each (range_down hours) (loop_body e current_time) [].

(** ** [prepare_features] *)

Record CurrentData : Type := mkCurrentData {
  cur_co : Q;
  cur_c6h6 : Q;
  cur_nox : Q;
  cur_no2 : Q;
  cur_temp : Q;
  cur_rh : Q;
  cur_hour_num : Z;
  cur_day_of_week : Z;
  cur_month : Z
}.

Record LagData : Type := mkLagData {
  lag_co : Q;
  lag_c6h6 : Q;
  lag_nox : Q;
  lag_no2 : Q;
  lag_temp : Q;
  lag_rh : Q
}.

Record Rolling : Type := mkRolling {
  roll_co : Q;
  roll_nox : Q
}.

(** Line 79. *)
Definition no2_nox_ratio (current_data : CurrentData) : exn + Q :=
  if Qlt_bool 0 (cur_nox current_data)
  then truediv (cur_no2 current_data) (cur_nox current_data)
  else inr 0.

(** The list [features], in the order of lines 81-98. *)
Definition feature_list (current_data : CurrentData) (lag_data : LagData)
    (rolling_3h rolling_6h : Rolling) (ratio : Q) : list Q :=
  [ cur_temp current_data;
    cur_rh current_data;
    inject_Z (cur_hour_num current_data);
    inject_Z (cur_day_of_week current_data);
    inject_Z (cur_month current_data);
    lag_co lag_data;
    lag_c6h6 lag_data;
    lag_nox lag_data;
    lag_no2 lag_data;
    lag_temp lag_data;
    lag_rh lag_data;
    roll_co rolling_3h;
    roll_co rolling_6h;
    roll_nox rolling_3h;
    roll_nox rolling_6h;
    ratio ].

(** [np.array(features).reshape(1, -1)]: one row holding all the entries. *)
Definition reshape_row (features : list Q) : matrix := [features].

Definition prepare_features (current_data : CurrentData) (lag_data : LagData)
    (rolling_3h rolling_6h : Rolling) : exn + matrix :=
  match no2_nox_ratio current_data with
  | inl e => inl e
  | inr ratio =>
      inr (reshape_row (feature_list current_data lag_data rolling_3h rolling_6h ratio))
  end.

(** ** [refresh_data] *)

#[local] Unset Elimination Schemes.
Inductive json : Type :=
| JBool (b : bool)
| JNum (q : Q)
| JStr (s : string)
| JList (items : list json)
| JObj (fields : list (string * json)).
#[local] Set Elimination Schemes.

(** Lines 171-179 and, word for word, lines 181-189. *)
Definition classify (s : Q) : string * string :=
  if Qle_bool 6.5 s then ("Safe", "green")%string
  else if Qle_bool 4.0 s then ("Moderate", "yellow")%string
  else ("High Emissions", "red")%string.

(** Lines 165 and 167. *)
Definition fallback_score (e : env) (current : Reading) : M Q :=
  u <- uniform e 0.9 1.1 ;; ret (score current * u).

(** Lines 126-133: the rolling means over a window of readings. *)
Definition rolling_of (window : list Reading) : Rolling :=
  mkRolling (np_mean (map co window)) (np_mean (map nox window)).

(** Lines 137-147: the current reading with the time fields of [now]. *)
Definition current_data_of (current : Reading) (now : datetime) : CurrentData :=
  mkCurrentData (co current) (c6h6 current) (nox current) (no2 current)
    (temp current) (rh current)
    (dt_hour now) (dt_weekday now) (dt_month now).

(** Lines 149-156. *)
Definition lag_data_dict_of (lag_data : Reading) : LagData :=
  mkLagData (co lag_data) (c6h6 lag_data) (nox lag_data) (no2 lag_data)
    (temp lag_data) (rh lag_data).

(** Lines 118-167: the predicted score. *)
Definition predict_score (e : env) (historical : list Reading)
    (current : Reading) : M Q :=
  if (6 <=? List.length historical)%nat then
    lag_data <- lift (index_from_end historical 2) ;;
    let last_3h := slice_last historical 3 in
    let last_6h := slice_last historical 6 in
    let rolling_3h := rolling_of last_3h in
    let rolling_6h := rolling_of last_6h in
    now <- datetime_now e ;;
    let current_data := current_data_of current now in
    let lag_data_dict := lag_data_dict_of lag_data in
    match model e, scaler e with
    | Some m, Some s =>
        features <-
          lift (prepare_features current_data lag_data_dict rolling_3h rolling_6h) ;;
        features_scaled <- scaler_transform s features ;;
        predictions <- model_predict m features_scaled ;;
        predicted_score <- lift (index_first predictions) ;;
        ret (py_max 0 (py_min 10 predicted_score))
    | _, _ => fallback_score e current
    end
  else fallback_score e current.

(** Lines 115-167: the current reading and the predicted score. *)
Definition scoring (e : env) (historical : list Reading) : M (Reading * Q) :=
  current <- lift (index_from_end historical 1) ;;
  predicted_score <- predict_score e historical current ;;
  ret (current, predicted_score).

(** Lines 191-215: the payload handed to [jsonify]. *)
Definition success_body (historical : list Reading) (current : Reading)
    (predicted_score : Q) : json :=
  let current_score := score current in
  let (status, color) := classify current_score in
  let (pred_status, pred_color) := classify predicted_score in
  JObj
    [ ("success", JBool true);
      ("current",
       JObj [ ("score", JNum (py_round current_score 2));
              ("status", JStr status);
              ("color", JStr color);
              ("timestamp", JStr (timestamp current));
              ("co", JNum (co current));
              ("nox", JNum (nox current));
              ("no2", JNum (no2 current));
              ("temp", JNum (temp current));
              ("rh", JNum (rh current)) ]);
      ("prediction",
       JObj [ ("score", JNum (py_round predicted_score 2));
              ("status", JStr pred_status);
              ("color", JStr pred_color) ]);
      ("historical",
       JList (map (fun h => JObj [ ("time", JStr (hour h));
                                   ("score", JNum (score h)) ])
                  historical)) ]%string.

(** Lines 219-222. *)
Definition failure_body (e : exn) : json :=
  JObj [ ("success", JBool false); ("error", JStr (exn_str e)) ]%string.

(** The body of the [try]. *)
Definition refresh_try (e : env) : M json :=
  historical <- generate_historical_data e 24 ;;
  r <- scoring e historical ;;
  ret (success_body historical (fst r) (snd r)).

(** The endpoint: the JSON body and the HTTP status. *)
Definition refresh_data (e : env) (w : world) : (json * Z) * world :=
  match refresh_try e w with
  | (inr body, w') => ((body, 200%Z), w')
  | (inl ex, w') => ((failure_body ex, 500%Z), w')
  end.

(** Looking a key up in a JSON object. *)
Fixpoint assoc (k : string) (fields : list (string * json)) : option json :=
  match fields with
  | [] => None
  | (k', v) :: rest => if String.eqb k k' then Some v else assoc k rest
  end.

Definition json_get (k : string) (j : json) : option json :=
  match j with
  | JObj fields => assoc k fields
  | _ => None
  end.

(** ** Sample environments *)

(** A clock stopped at 2026-11-03 18:55:00 and draws that are all [1/2]. *)
Definition sample_now : datetime := mk_datetime 2026 11 3 18 55 0.

Definition env_no_model : env :=
  mkEnv (fun _ => 1 # 2) (fun _ => sample_now) None None.

(** A scaler that returns its input and a model that always predicts 7.2. *)
Definition env_stub : env :=
  mkEnv (fun _ => 1 # 2) (fun _ => sample_now)
        (Some (fun _ => inr [7.2])) (Some (fun x => inr x)).

(** A scaler that raises. *)
Definition env_bad_scaler : env :=
  mkEnv (fun _ => 1 # 2) (fun _ => sample_now)
        (Some (fun _ => inr [7.2]))
        (Some (fun _ => inl (ExternalError "X has 16 features, but StandardScaler is expecting 12 features as input."))).

Definition world0 : world := mkWorld 0 0 [].

(** A clock stopped at 0001-01-01 10:00:00, less than a day after the
    earliest datetime. *)
Definition env_early_clock : env :=
  mkEnv (fun _ => 1 # 2) (fun _ => mk_datetime 1 1 1 10 0 0) None None.

(** A reading with the best score, and five earlier copies of it. *)
Definition clean_reading : Reading :=
  mkReading "2026-11-03 17:55:00" "17:55" 0 0 0 0 22 50 10.

Definition six_clean : list Reading := repeat clean_reading 6.

(** Draws that are all [0.99]. *)
Definition env_high_draws : env :=
  mkEnv (fun _ => 0.99) (fun _ => sample_now) None None.

(** ** Closed forms used in the statements *)

(** [w] after [n] more draws of [random.random()]. *)
Definition after_draws (n : nat) (w : world) : world :=
  mkWorld (n + rng_pos w) (clock_pos w) (calls w).

(** [w] after one more reading of the clock. *)
Definition after_clock (w : world) : world :=
  mkWorld (rng_pos w) (S (clock_pos w)) (calls w).

(** The offset of [i] hours before [current_time] can be taken: neither the
    [timedelta] nor the subtraction raises. *)
Definition offset_ok (current_time : datetime) (i : Z) : Prop :=
  timedelta_hours i = inr (i * us_per_hour)%Z /\
  datetime_sub current_time (i * us_per_hour)
  = inr (current_time - i * us_per_hour)%Z.

(** The feature row built at lines 118-160 from the readings and the clock
    value [now]. *)
Definition features_of (historical : list Reading) (current lag_data : Reading)
    (now : datetime) : exn + matrix :=
  prepare_features (current_data_of current now) (lag_data_dict_of lag_data)
    (rolling_of (slice_last historical 3)) (rolling_of (slice_last historical 6)).

(** The noise factor made from the draw [u]. *)
Definition noise_of (u : Q) : Q := 0.85 + (1.15 - 0.85) * u.

(** The locals of the iteration at offset [i] whose three draws are the
    ones at positions [p], [p + 1] and [p + 2]. *)
Definition sample_at (e : env) (current_time : datetime) (i : Z) (p : nat) : Sample :=
  let timestamp := (current_time - i * us_per_hour)%Z in
  let tf := traffic_factor (dt_hour timestamp) in
  let noise := noise_of (draws e p) in
  let co := base_co * tf * noise in
  let c6h6 := base_c6h6 * tf * noise in
  let nox := base_nox * tf * noise in
  let no2 := base_no2 * tf * noise in
  mkSample timestamp co c6h6 nox no2
    (base_temp + (-3 + (3 - -3) * draws e (S p)))
    (base_rh + (-10 + (10 - -10) * draws e (S (S p))))
    (emission_score co c6h6 nox no2).

(** The readings of a run of [hours] iterations that starts at draw [p]:
    iteration [k] (counted from 0) is at offset [hours - k]. *)
Definition readings_at (e : env) (current_time : datetime) (hours : Z)
    (p : nat) (k0 n : nat) : list Reading :=
  map (fun k => to_reading
                  (sample_at e current_time (hours - Z.of_nat k) (3 * k + p)))
      (seq k0 n).

(** ** The pollutant values on doubles *)

#[local] Set Warnings "-inexact-float".








(** ** Startup *)

(** Lines 11-18: both artifacts are loaded inside one [try]; when either
    [joblib.load] raises, both globals are set to [None]. The arguments are
    the outcomes of the two loads. *)
Definition load_artifacts (load_model : exn + predictor)
    (load_scaler : exn + transformer) : option predictor * option transformer :=
  match load_model with
  | inl _ => (None, None)
  | inr m =>
      match load_scaler with
      | inl _ => (None, None)
      | inr s => (Some m, Some s)
      end
  end.

(** The environment of a process started with these load outcomes. *)
Definition env_after_startup (draws : nat -> Q) (clock : nat -> datetime)
    (load_model : exn + predictor) (load_scaler : exn + transformer) : env :=
  mkEnv draws clock
        (fst (load_artifacts load_model load_scaler))
        (snd (load_artifacts load_model load_scaler)).

(** ** Notions used in the further statements *)

(** Every value of [random.random()] lies between 0 and 1. *)
Definition unit_draws (e : env) : Prop := forall n : nat, 0 <= draws e n <= 1.

(** The hour of the day of the iteration at offset [i] hours before [now]. *)
Definition hour_at (now : datetime) (i : Z) : Z :=
  dt_hour (now - i * us_per_hour)%Z.

(** How many of the 24 offsets of a day-long run whose clock value has the
    hour of the day [h0] fall in an hour with the factor [f]. *)
Definition day_count_hours (h0 : Z) (f : Q) : nat :=
  List.length
    (filter (fun k => Qeq_bool
                        (traffic_factor ((h0 - (24 - Z.of_nat k)) mod 24)%Z) f)
            (seq 0 24)).

(** A scaler and a model that both answer, with a fixed prediction. *)
Definition env_predicts (p : Q) : env :=
  mkEnv (fun _ => 1 # 2) (fun _ => sample_now)
        (Some (fun _ => inr [p])) (Some (fun x => inr x)).

(** A model that returns no prediction at all. *)
Definition env_empty_prediction : env :=
  mkEnv (fun _ => 1 # 2) (fun _ => sample_now)
        (Some (fun _ => inr [])) (Some (fun x => inr x)).

(** * Properties *)

(** ** The calendar on known dates *)

Example ord2ymd_epoch_1970 : ord2ymd 719163 = (1970, 1, 1)%Z.
Proof. reflexivity. Qed.

Example ord2ymd_leap_day : ord2ymd (ymd2ord 2024 2 29) = (2024, 2, 29)%Z.
Proof. reflexivity. Qed.

Example ord2ymd_last_day : ord2ymd MAXORDINAL = (9999, 12, 31)%Z.
Proof. reflexivity. Qed.

Example strftime_full_sample :
  strftime_full (mk_datetime 2026 11 3 9 5 7 + 123456)%Z
  = "2026-11-03 09:05:07"%string.
Proof. reflexivity. Qed.

Example weekday_sample : dt_weekday (mk_datetime 2026 11 3 9 5 7) = 1%Z.
Proof. reflexivity. Qed.

(** ** Arithmetic of the Python primitives *)

Lemma Qlt_bool_iff (x y : Q) : Qlt_bool x y = true <-> x < y.
Proof. unfold Qlt_bool, Qlt. apply Z.ltb_lt. Qed.

Lemma Qlt_bool_false_iff (x y : Q) : Qlt_bool x y = false <-> y <= x.
Proof. unfold Qlt_bool, Qle. apply Z.ltb_ge. Qed.

Lemma Qle_bool_false_iff (x y : Q) : Qle_bool x y = false <-> y < x.
Proof.
  rewrite <- Bool.not_true_iff_false, Qle_bool_iff. split.
  - apply Qnot_le_lt.
  - apply Qlt_not_le.
Qed.

(** [max(0, min(10, x))] is the clamp of [x] to the interval from 0 to 10. *)
Lemma py_clamp_Qminmax (x : Q) : py_max 0 (py_min 10 x) == Qmax 0 (Qmin 10 x).
Proof.
  unfold py_max, py_min.
  destruct (Qlt_bool x 10) eqn:H10.
  - apply Qlt_bool_iff in H10.
    rewrite (Q.min_r 10 x) by (apply Qlt_le_weak; exact H10).
    destruct (Qlt_bool 0 x) eqn:H0.
    + apply Qlt_bool_iff in H0. rewrite Q.max_r by (apply Qlt_le_weak; exact H0).
      reflexivity.
    + apply Qlt_bool_false_iff in H0. rewrite Q.max_l by exact H0. reflexivity.
  - apply Qlt_bool_false_iff in H10.
    rewrite (Q.min_l 10 x) by exact H10.
    reflexivity.
Qed.

Lemma py_clamp_range (x : Q) : 0 <= py_max 0 (py_min 10 x) <= 10.
Proof.
  unfold py_max, py_min.
  destruct (Qlt_bool x 10) eqn:H10.
  - apply Qlt_bool_iff in H10.
    destruct (Qlt_bool 0 x) eqn:H0.
    + apply Qlt_bool_iff in H0. split; apply Qlt_le_weak; assumption.
    + split; [apply Qle_refl | discriminate].
  - split; discriminate.
Qed.

(** Strictly inside the interval the clamp returns its argument unchanged. *)
Lemma py_clamp_inactive (x : Q) : 0 < x -> x < 10 -> py_max 0 (py_min 10 x) = x.
Proof.
  intros H0 H10. unfold py_max, py_min.
  apply Qlt_bool_iff in H10. rewrite H10.
  apply Qlt_bool_iff in H0. rewrite H0. reflexivity.
Qed.

Lemma round_half_even_range (x : Q) (n : Z) :
  0 <= x -> x <= inject_Z n -> (0 <= round_half_even x <= n)%Z.
Proof.
  intros H0 Hn. unfold round_half_even.
  pose proof (Qfloor_le x) as Hfl.
  pose proof (Qlt_floor x) as Hlt.
  assert (Hf0 : (0 <= Qfloor x)%Z).
  { change 0%Z with (Qfloor 0). apply Qfloor_resp_le. exact H0. }
  assert (Hfn : (Qfloor x <= n)%Z).
  { rewrite <- (Qfloor_Z n). apply Qfloor_resp_le. exact Hn. }
  assert (Hstep : 0 < x - inject_Z (Qfloor x) -> (Qfloor x + 1 <= n)%Z).
  { intros Hpos.
    assert (Hlt' : inject_Z (Qfloor x) < inject_Z n) by lra.
    rewrite <- Zlt_Qlt in Hlt'. lia. }
  destruct (Qcompare (x - inject_Z (Qfloor x)) (1 # 2)) eqn:Hc.
  - apply Qeq_alt in Hc.
    destruct (Z.even (Qfloor x)); [lia |].
    assert (0 < x - inject_Z (Qfloor x)) by lra.
    specialize (Hstep H). lia.
  - lia.
  - apply Qgt_alt in Hc.
    assert (0 < x - inject_Z (Qfloor x)) by lra.
    specialize (Hstep H). lia.
Qed.

(** Rounding to two decimals keeps a value inside the interval from 0 to 10. *)
Lemma py_round2_range (x : Q) : 0 <= x <= 10 -> 0 <= py_round x 2 <= 10.
Proof.
  intros [H0 H10]. unfold py_round.
  change (Pos.pow 10 (Pos.of_nat 2)) with 100%positive.
  destruct (round_half_even_range (x * inject_Z 100) 1000) as [Ha Hb].
  - change (inject_Z 100) with 100. lra.
  - change (inject_Z 100) with 100. change (inject_Z 1000) with 1000. lra.
  - unfold Qle. simpl. lia.
Qed.

(** ** The pure parts: traffic factor, classification, features *)

Lemma dt_hour_range (t : datetime) : (0 <= dt_hour t <= 23)%Z.
Proof. unfold dt_hour. pose proof (Z.mod_pos_bound (t / us_per_hour) 24). lia. Qed.

(** C6. For every hour of the day [h] from 0 to 23 the traffic factor is 1.5
    when [h] lies in 7..9 or 17..19, 0.6 when [h >= 22] or [h <= 5], and 1.0
    otherwise; the edges 9, 10, 22, 5 and 6 give 1.5, 1.0, 0.6, 0.6 and 1.0. *)
Theorem traffic_factor_by_hour (h : Z) :
  (0 <= h <= 23)%Z ->
  ((7 <= h <= 9 \/ 17 <= h <= 19)%Z -> traffic_factor h = 1.5) /\
  ((22 <= h \/ h <= 5)%Z -> traffic_factor h = 0.6) /\
  (~ (7 <= h <= 9 \/ 17 <= h <= 19)%Z -> ~ (22 <= h \/ h <= 5)%Z ->
   traffic_factor h = 1.0) /\
  traffic_factor 9 = 1.5 /\ traffic_factor 10 = 1.0 /\
  traffic_factor 22 = 0.6 /\ traffic_factor 5 = 0.6 /\ traffic_factor 6 = 1.0.
Proof.
  intros Hh. unfold traffic_factor.
  repeat split; try reflexivity.
  - intros Hrush.
    assert (E : (((7 <=? h) && (h <=? 9)) || ((17 <=? h) && (h <=? 19)))%Z = true) by lia.
    rewrite E. reflexivity.
  - intros Hnight.
    assert (E1 : (((7 <=? h) && (h <=? 9)) || ((17 <=? h) && (h <=? 19)))%Z = false) by lia.
    assert (E2 : ((22 <=? h) || (h <=? 5))%Z = true) by lia.
    rewrite E1, E2. reflexivity.
  - intros Hrush Hnight.
    assert (E1 : (((7 <=? h) && (h <=? 9)) || ((17 <=? h) && (h <=? 19)))%Z = false) by lia.
    assert (E2 : ((22 <=? h) || (h <=? 5))%Z = false) by lia.
    rewrite E1, E2. reflexivity.
Qed.

Lemma traffic_factor_by_hour_witness :
  traffic_factor 8 = 1.5 /\ traffic_factor 23 = 0.6 /\ traffic_factor 12 = 1.0.
Proof.
  split; [| split].
  - destruct (traffic_factor_by_hour 8) as [Hrush _]; [lia |].
    apply Hrush. lia.
  - destruct (traffic_factor_by_hour 23) as [_ [Hnight _]]; [lia |].
    apply Hnight. lia.
  - destruct (traffic_factor_by_hour 12) as [_ [_ [Hday _]]]; [lia |].
    apply Hday; lia.
Defined.

(** The factor takes one of three values, whatever the hour. *)
Lemma traffic_factor_values (h : Z) :
  traffic_factor h = 1.5 \/ traffic_factor h = 0.6 \/ traffic_factor h = 1.0.
Proof.
  unfold traffic_factor.
  destruct (((7 <=? h) && (h <=? 9)) || ((17 <=? h) && (h <=? 19)))%Z; [now left |].
  destruct ((22 <=? h) || (h <=? 5))%Z; [right; now left | right; now right].
Qed.

(** C5. The classification maps a score [s >= 6.5] to Safe/green, a score
    with [4.0 <= s < 6.5] to Moderate/yellow and a score [s < 4.0] to
    High Emissions/red; 6.5 itself is Safe and 4.0 itself is Moderate. *)
Theorem classify_bands (s : Q) :
  (6.5 <= s -> classify s = ("Safe", "green")%string) /\
  (4.0 <= s -> s < 6.5 -> classify s = ("Moderate", "yellow")%string) /\
  (s < 4.0 -> classify s = ("High Emissions", "red")%string) /\
  classify 6.5 = ("Safe", "green")%string /\
  classify 4.0 = ("Moderate", "yellow")%string.
Proof.
  unfold classify. repeat split; try reflexivity.
  - intros H. apply Qle_bool_iff in H. rewrite H. reflexivity.
  - intros H4 H65.
    apply Qle_bool_false_iff in H65. rewrite H65.
    apply Qle_bool_iff in H4. rewrite H4. reflexivity.
  - intros H4.
    assert (H65 : s < 6.5) by lra.
    apply Qle_bool_false_iff in H65. rewrite H65.
    apply Qle_bool_false_iff in H4. rewrite H4. reflexivity.
Qed.

Lemma classify_bands_witness :
  classify 7.2 = ("Safe", "green")%string /\
  classify 6.499 = ("Moderate", "yellow")%string /\
  classify 3.999 = ("High Emissions", "red")%string.
Proof.
  split; [| split].
  - destruct (classify_bands 7.2) as [Hsafe _].
    apply Hsafe. unfold Qle. simpl. lia.
  - destruct (classify_bands 6.499) as [_ [Hmod _]].
    apply Hmod; [unfold Qle | unfold Qlt]; simpl; lia.
  - destruct (classify_bands 3.999) as [_ [_ [Hhigh _]]].
    apply Hhigh. unfold Qlt. simpl. lia.
Defined.

(** The division itself is not total: it raises on a zero divisor. *)
Example truediv_by_zero :
  truediv 110 0 = inl (ZeroDivisionError "float division by zero").
Proof. reflexivity. Qed.

Lemma truediv_pos (a b : Q) : 0 < b -> truediv a b = inr (a / b).
Proof.
  intros Hb. unfold truediv.
  destruct (Qeq_bool b 0) eqn:E; [| reflexivity].
  apply Qeq_bool_iff in E. rewrite E in Hb. discriminate.
Qed.

(** The ratio of line 79 always has a value. *)
Lemma no2_nox_ratio_value (current_data : CurrentData) :
  no2_nox_ratio current_data
  = inr (if Qlt_bool 0 (cur_nox current_data)
         then cur_no2 current_data / cur_nox current_data else 0).
Proof.
  unfold no2_nox_ratio.
  destruct (Qlt_bool 0 (cur_nox current_data)) eqn:E; [| reflexivity].
  apply Qlt_bool_iff in E. apply truediv_pos. exact E.
Qed.

(** C8. The NO2/NOx ratio is [no2 / nox] when [nox > 0] and 0 otherwise;
    the guarded division raises for no input, zero and negative [nox]
    included. *)
Theorem no2_nox_ratio_guarded (current_data : CurrentData) :
  (0 < cur_nox current_data ->
   no2_nox_ratio current_data
   = inr (cur_no2 current_data / cur_nox current_data)) /\
  (~ 0 < cur_nox current_data -> no2_nox_ratio current_data = inr 0) /\
  (forall e, no2_nox_ratio current_data <> inl e).
Proof.
  rewrite no2_nox_ratio_value.
  split; [| split].
  - intros H. apply Qlt_bool_iff in H. rewrite H. reflexivity.
  - intros H. destruct (Qlt_bool 0 (cur_nox current_data)) eqn:E; [| reflexivity].
    apply Qlt_bool_iff in E. contradiction.
  - intros e. discriminate.
Qed.

Lemma no2_nox_ratio_guarded_witness :
  no2_nox_ratio (mkCurrentData 3.75 12 300 165 22 50 18 1 11) = inr (165 / 300) /\
  no2_nox_ratio (mkCurrentData 3.75 12 0 165 22 50 18 1 11) = inr 0 /\
  no2_nox_ratio (mkCurrentData 3.75 12 (-4) 165 22 50 18 1 11) = inr 0.
Proof.
  split; [| split].
  - destruct (no2_nox_ratio_guarded (mkCurrentData 3.75 12 300 165 22 50 18 1 11))
      as [Hpos _].
    apply Hpos. reflexivity.
  - destruct (no2_nox_ratio_guarded (mkCurrentData 3.75 12 0 165 22 50 18 1 11))
      as [_ [Hzero _]].
    apply Hzero. simpl. discriminate.
  - destruct (no2_nox_ratio_guarded (mkCurrentData 3.75 12 (-4) 165 22 50 18 1 11))
      as [_ [Hneg _]].
    apply Hneg. simpl. discriminate.
Defined.

Lemma prepare_features_value (current_data : CurrentData) (lag_data : LagData)
    (rolling_3h rolling_6h : Rolling) :
  prepare_features current_data lag_data rolling_3h rolling_6h
  = inr [feature_list current_data lag_data rolling_3h rolling_6h
           (if Qlt_bool 0 (cur_nox current_data)
            then cur_no2 current_data / cur_nox current_data else 0)].
Proof.
  unfold prepare_features. rewrite no2_nox_ratio_value. reflexivity.
Qed.

(** C1. For every input [prepare_features] returns (it never raises) one row
    of exactly 16 entries, in the order temp, rh, hour_num, day_of_week,
    month, the six lag fields, rolling_3h.co, rolling_6h.co, rolling_3h.nox,
    rolling_6h.nox and the NO2/NOx ratio. *)
Theorem prepare_features_layout (current_data : CurrentData) (lag_data : LagData)
    (rolling_3h rolling_6h : Rolling) :
  exists row ratio,
    prepare_features current_data lag_data rolling_3h rolling_6h = inr [row] /\
    no2_nox_ratio current_data = inr ratio /\
    List.length row = 16%nat /\
    row = [ cur_temp current_data; cur_rh current_data;
            inject_Z (cur_hour_num current_data);
            inject_Z (cur_day_of_week current_data);
            inject_Z (cur_month current_data);
            lag_co lag_data; lag_c6h6 lag_data; lag_nox lag_data;
            lag_no2 lag_data; lag_temp lag_data; lag_rh lag_data;
            roll_co rolling_3h; roll_co rolling_6h;
            roll_nox rolling_3h; roll_nox rolling_6h;
            ratio ].
Proof.
  unfold prepare_features. rewrite no2_nox_ratio_value.
  eexists. eexists. repeat split.
Qed.

(** ** The generator *)

Lemma timedelta_hours_inr (i d : Z) :
  timedelta_hours i = inr d -> d = (i * us_per_hour)%Z.
Proof.
  unfold timedelta_hours.
  destruct (999999999 <? Z.abs (i / 24))%Z; [discriminate |].
  intros H. injection H as <-. reflexivity.
Qed.

Lemma timedelta_hours_inl (i : Z) (ex : exn) :
  timedelta_hours i = inl ex -> exists msg, ex = OverflowError msg.
Proof.
  unfold timedelta_hours.
  destruct (999999999 <? Z.abs (i / 24))%Z; [| discriminate].
  intros H. injection H as <-. eexists. reflexivity.
Qed.

Lemma datetime_sub_inr (t d r : Z) :
  datetime_sub t d = inr r -> r = (t - d)%Z /\ valid_datetime r.
Proof.
  unfold datetime_sub, valid_datetime.
  destruct ((0 <=? t - d) && (t - d <? MAXORDINAL * us_per_day))%Z eqn:E;
    [| discriminate].
  intros H. injection H as <-. split; [reflexivity | lia].
Qed.

Lemma datetime_sub_inl (t d : Z) (ex : exn) :
  datetime_sub t d = inl ex -> ex = OverflowError "date value out of range".
Proof.
  unfold datetime_sub.
  destruct ((0 <=? t - d) && (t - d <? MAXORDINAL * us_per_day))%Z;
    [discriminate |].
  intros H. injection H as <-. reflexivity.
Qed.

(** An offset of hours that stays within the representable dates. *)
Lemma offset_in_range (now i : Z) :
  valid_datetime now -> (0 <= i)%Z -> (i * us_per_hour <= now)%Z ->
  offset_ok now i.
Proof.
  unfold offset_ok, valid_datetime, timedelta_hours, datetime_sub, MAXORDINAL,
    us_per_day, us_per_hour, us_per_second.
  intros Hnow Hi Hle.
  assert (Hdiv : (0 <= i / 24 <= 999999999)%Z).
  { split; [apply Z.div_pos; lia |].
    apply Z.lt_succ_r. apply Z.div_lt_upper_bound; lia. }
  assert (E1 : (999999999 <? Z.abs (i / 24))%Z = false) by lia.
  rewrite E1.
  assert (E2 : ((0 <=? now - i * (3600 * 1000000))
                && (now - i * (3600 * 1000000) <? 3652059 * (86400 * 1000000)))%Z
               = true) by lia.
  rewrite E2. split; reflexivity.
Qed.

Lemma offset_ok_valid (now i : Z) :
  offset_ok now i -> valid_datetime (now - i * us_per_hour)%Z.
Proof. intros [_ H]. apply datetime_sub_inr in H. tauto. Qed.

(** When the offset can be taken the iteration yields the closed form and
    consumes three draws, whatever the state. *)
Lemma sample_hour_ok (e : env) (now : datetime) (i : Z) (w : world) :
  offset_ok now i ->
  sample_hour e now i w = (inr (sample_at e now i (rng_pos w)), after_draws 3 w).
Proof.
  intros [E1 E2]. unfold sample_hour, bind, lift. rewrite E1, E2. reflexivity.
Qed.

(** Otherwise it raises [OverflowError] and leaves the state as it was. *)
Lemma sample_hour_cases (e : env) (now : datetime) (i : Z) (w : world) :
  (exists msg, sample_hour e now i w = (inl (OverflowError msg), w) /\
               (timedelta_hours i = inl (OverflowError msg) \/
                datetime_sub now (i * us_per_hour) = inl (OverflowError msg)))
  \/ offset_ok now i.
Proof.
  unfold offset_ok, sample_hour, bind, lift.
  destruct (timedelta_hours i) as [ex | d] eqn:Etd.
  - left. destruct (timedelta_hours_inl _ _ Etd) as [msg ->].
    exists msg. split; [reflexivity | left; reflexivity].
  - apply timedelta_hours_inr in Etd. subst d.
    destruct (datetime_sub now (i * us_per_hour)) as [ex | r] eqn:Esub.
    + left. pose proof (datetime_sub_inl _ _ _ Esub) as ->.
      eexists. split; [reflexivity | right; reflexivity].
    + right. apply datetime_sub_inr in Esub. destruct Esub as [-> Hv].
      split; reflexivity.
Qed.

Lemma sample_hour_inr (e : env) (now : datetime) (i : Z) (w w' : world) (s : Sample) :
  sample_hour e now i w = (inr s, w') ->
  offset_ok now i /\ s = sample_at e now i (rng_pos w) /\ w' = after_draws 3 w.
Proof.
  intros H.
  destruct (sample_hour_cases e now i w) as [[msg [E _]] | Hok].
  - rewrite E in H. discriminate.
  - rewrite (sample_hour_ok e now i w Hok) in H.
    injection H as <- <-. repeat split; apply Hok.
Qed.

Lemma after_draws_add (a b : nat) (w : world) :
  after_draws a (after_draws b w) = after_draws (a + b) w.
Proof. unfold after_draws. simpl. f_equal. lia. Qed.

Lemma after_draws_0 (w : world) : after_draws 0 w = w.
Proof. destruct w. reflexivity. Qed.

Lemma readings_at_length (e : env) (now : datetime) (hours : Z) (p k0 n : nat) :
  List.length (readings_at e now hours p k0 n) = n.
Proof. unfold readings_at. rewrite length_map, length_seq. reflexivity. Qed.

Lemma readings_at_nth (e : env) (now : datetime) (hours : Z) (p n k : nat) :
  (k < n)%nat ->
  nth_error (readings_at e now hours p 0 n) k
  = Some (to_reading (sample_at e now (hours - Z.of_nat k) (3 * k + p))).
Proof.
  intros Hk. unfold readings_at.
  rewrite nth_error_map, nth_error_seq.
  apply Nat.ltb_lt in Hk. rewrite Hk. reflexivity.
Qed.

Lemma readings_at_cons (e : env) (now : datetime) (hours : Z) (p k0 n : nat) :
  readings_at e now hours p k0 (S n)
  = to_reading (sample_at e now (hours - Z.of_nat k0) (3 * k0 + p))
    :: readings_at e now hours p (S k0) n.
Proof. reflexivity. Qed.

Lemma for_each_cons {S : Type} (x : Z) (xs : list Z) (body : Z -> S -> M S)
    (s : S) (w : world) :
  for_each (x :: xs) body s w
  = match body x s w with
    | (inl ex, w') => (inl ex, w')
    | (inr s', w') => for_each xs body s' w'
    end.
Proof. reflexivity. Qed.

Lemma loop_body_run (e : env) (now : datetime) (i : Z) (data : list Reading)
    (w : world) :
  loop_body e now i data w
  = match sample_hour e now i w with
    | (inl ex, w') => (inl ex, w')
    | (inr s, w') => (inr (data ++ [to_reading s]), w')
    end.
Proof. reflexivity. Qed.

(** The loop, when every offset stays in range: all the iterations run and
    each consumes three draws. *)
Lemma loop_ok (e : env) (now : datetime) (hours : Z) (p : nat) :
  valid_datetime now -> (hours * us_per_hour <= now)%Z ->
  forall (n k0 : nat) (acc : list Reading) (w : world),
    (Z.of_nat (k0 + n) <= hours)%Z ->
    rng_pos w = (3 * k0 + p)%nat ->
    for_each (map (fun k => (hours - Z.of_nat k)%Z) (seq k0 n))
             (loop_body e now) acc w
    = (inr (acc ++ readings_at e now hours p k0 n), after_draws (3 * n) w).
Proof.
  intros Hnow Hle. induction n as [| n IH]; intros k0 acc w Hk Hpos.
  - simpl. unfold ret, readings_at. simpl.
    rewrite app_nil_r, after_draws_0. reflexivity.
  - rewrite readings_at_cons. simpl seq. simpl map.
    rewrite for_each_cons, loop_body_run.
    rewrite sample_hour_ok;
      [| apply offset_in_range;
         [exact Hnow | lia | unfold us_per_hour, us_per_second in *; nia]].
    rewrite IH; [| lia | simpl; lia].
    rewrite after_draws_add, <- app_assoc, Hpos. simpl app.
    f_equal. f_equal. lia.
Qed.

(** The loop in general: it raises [OverflowError] at some iteration, or
    every offset can be taken and it runs as above. The calls log and the
    clock are never touched. *)
Lemma loop_cases (e : env) (now : datetime) (hours : Z) (p : nat) :
  forall (n k0 : nat) (acc : list Reading) (w : world),
    rng_pos w = (3 * k0 + p)%nat ->
    (exists msg w',
        for_each (map (fun k => (hours - Z.of_nat k)%Z) (seq k0 n))
                 (loop_body e now) acc w
        = (inl (OverflowError msg), w') /\
        calls w' = calls w /\ clock_pos w' = clock_pos w)
    \/
    (for_each (map (fun k => (hours - Z.of_nat k)%Z) (seq k0 n))
              (loop_body e now) acc w
     = (inr (acc ++ readings_at e now hours p k0 n), after_draws (3 * n) w) /\
     forall k, (k0 <= k < k0 + n)%nat -> offset_ok now (hours - Z.of_nat k)).
Proof.
  induction n as [| n IH]; intros k0 acc w Hpos.
  - right. split; [| intros k Hk; lia].
    simpl. unfold ret, readings_at. simpl.
    rewrite app_nil_r, after_draws_0. reflexivity.
  - rewrite readings_at_cons. simpl seq. simpl map.
    rewrite !for_each_cons, !loop_body_run.
    destruct (sample_hour_cases e now (hours - Z.of_nat k0) w)
      as [[msg [E _]] | Hok].
    + rewrite E. left. exists msg, w. repeat split.
    + rewrite (sample_hour_ok e now _ w Hok).
      destruct (IH (S k0)
                  (acc ++ [to_reading (sample_at e now (hours - Z.of_nat k0) (rng_pos w))])
                  (after_draws 3 w)) as [[msg [w' [E' [Hc Hk]]]] | [E' Hall]].
      * simpl. lia.
      * left. exists msg, w'. rewrite E'. repeat split; assumption.
      * right. rewrite E'. split.
        -- rewrite after_draws_add, <- app_assoc, Hpos. simpl app.
           f_equal. f_equal. lia.
        -- intros k Hk.
           destruct (Nat.eq_dec k k0) as [-> | Hne]; [exact Hok |].
           apply Hall. lia.
Qed.

Lemma range_down_pos (hours : Z) :
  (0 < hours)%Z ->
  range_down hours
  = hours :: map (fun k => (hours - Z.of_nat k)%Z) (seq 1 (Z.to_nat hours - 1)).
Proof.
  intros H. unfold range_down.
  destruct (Z.to_nat hours) as [| n] eqn:E; [lia |].
  simpl. rewrite Z.sub_0_r, Nat.sub_0_r. reflexivity.
Qed.

(** The run of the generator when the oldest offset is representable. *)
Lemma generate_ok (e : env) (hours : Z) (w : world) :
  valid_datetime (clock e (clock_pos w)) ->
  (0 <= hours)%Z ->
  (hours * us_per_hour <= clock e (clock_pos w))%Z ->
  generate_historical_data e hours w
  = (inr (readings_at e (clock e (clock_pos w)) hours (rng_pos w) 0 (Z.to_nat hours)),
     after_draws (3 * Z.to_nat hours) (after_clock w)).
Proof.
  intros Hnow H0 Hle.
  unfold generate_historical_data, bind, datetime_now, range_down.
  fold (after_clock w).
  rewrite (loop_ok e _ hours (rng_pos w) Hnow Hle); [reflexivity | lia | simpl; lia].
Qed.

(** The run of the generator in general. *)
Lemma generate_cases (e : env) (hours : Z) (w : world) :
  (exists msg w',
      generate_historical_data e hours w = (inl (OverflowError msg), w') /\
      calls w' = calls w)
  \/
  (generate_historical_data e hours w
   = (inr (readings_at e (clock e (clock_pos w)) hours (rng_pos w) 0 (Z.to_nat hours)),
      after_draws (3 * Z.to_nat hours) (after_clock w)) /\
   forall k, (k < Z.to_nat hours)%nat ->
             offset_ok (clock e (clock_pos w)) (hours - Z.of_nat k)).
Proof.
  unfold generate_historical_data, bind, datetime_now, range_down.
  fold (after_clock w).
  destruct (loop_cases e (clock e (clock_pos w)) hours (rng_pos w)
              (Z.to_nat hours) 0 [] (after_clock w))
    as [[msg [w' [E [Hc _]]]] | [E Hall]].
  - simpl. lia.
  - left. exists msg, w'. split; assumption.
  - right. split; [exact E |]. intros k Hk. apply Hall. lia.
Qed.

(** The first iteration is the oldest offset: when that instant is before
    the earliest datetime the generator raises at once. *)
Lemma generate_overflow (e : env) (hours : Z) (w : world) :
  (0 < hours)%Z -> (hours / 24 <= 999999999)%Z ->
  (clock e (clock_pos w) < hours * us_per_hour)%Z ->
  generate_historical_data e hours w
  = (inl (OverflowError "date value out of range"), after_clock w).
Proof.
  intros Hpos Hdays Hlt.
  unfold generate_historical_data, bind, datetime_now.
  fold (after_clock w).
  rewrite (range_down_pos hours Hpos), for_each_cons, loop_body_run.
  destruct (sample_hour_cases e (clock e (clock_pos w)) hours (after_clock w))
    as [[msg [E [Htd | Hsub]]] | Hok].
  - exfalso. unfold timedelta_hours in Htd.
    assert (E1 : (999999999 <? Z.abs (hours / 24))%Z = false).
    { assert (0 <= hours / 24)%Z by (apply Z.div_pos; lia). lia. }
    rewrite E1 in Htd. discriminate.
  - rewrite E. pose proof (datetime_sub_inl _ _ _ Hsub) as Hmsg.
    rewrite Hmsg. reflexivity.
  - exfalso. apply offset_ok_valid in Hok. unfold valid_datetime in Hok. lia.
Qed.

(** Every reading of a successful run is the entry made from the locals of
    its iteration. *)
Lemma generated_reading (e : env) (hours : Z) (w w' : world)
    (data : list Reading) (k : nat) (r : Reading) :
  generate_historical_data e hours w = (inr data, w') ->
  nth_error data k = Some r ->
  (k < Z.to_nat hours)%nat /\
  r = to_reading (sample_at e (clock e (clock_pos w)) (hours - Z.of_nat k)
                            (3 * k + rng_pos w)) /\
  sample_hour e (clock e (clock_pos w)) (hours - Z.of_nat k)
              (after_draws (3 * k) (after_clock w))
  = (inr (sample_at e (clock e (clock_pos w)) (hours - Z.of_nat k)
                    (3 * k + rng_pos w)),
     after_draws (3 * S k) (after_clock w)).
Proof.
  intros Hrun Hnth.
  destruct (generate_cases e hours w) as [[msg [w1 [E _]]] | [E Hall]];
    rewrite E in Hrun; [discriminate |].
  injection Hrun as <- <-.
  assert (Hk : (k < Z.to_nat hours)%nat).
  { rewrite <- (readings_at_length e (clock e (clock_pos w)) hours (rng_pos w) 0).
    apply nth_error_Some. rewrite Hnth. discriminate. }
  rewrite (readings_at_nth _ _ _ _ _ _ Hk) in Hnth. injection Hnth as <-.
  repeat split; [exact Hk |].
  rewrite (sample_hour_ok _ _ _ _ (Hall k Hk)), after_draws_add.
  f_equal. f_equal. lia.
Qed.

(** ** Claims on the generated series *)

(** C3, as amended. For every positive [hours] whose oldest offset
    [now - hours] is not before the earliest datetime, the generator returns
    exactly [hours] readings, oldest first: the reading at index [k] carries
    the rendering of the instant [now - (hours - k)] hours, so the instants
    run from [now - hours] to [now - 1] hours in steps of exactly one hour. *)
Theorem generate_hours_readings (e : env) (hours : Z) (w : world) (now : datetime) :
  now = clock e (clock_pos w) ->
  valid_datetime now ->
  (0 < hours)%Z ->
  (hours * us_per_hour <= now)%Z ->
  exists (data : list Reading) (instants : list datetime) (w' : world),
    generate_historical_data e hours w = (inr data, w') /\
    List.length data = Z.to_nat hours /\
    List.length instants = Z.to_nat hours /\
    map timestamp data = map strftime_full instants /\
    map hour data = map strftime_hm instants /\
    (forall k, (k < Z.to_nat hours)%nat ->
       nth_error instants k = Some (now - (hours - Z.of_nat k) * us_per_hour)%Z) /\
    (forall k t t', nth_error instants k = Some t ->
       nth_error instants (S k) = Some t' ->
       t' = (t + us_per_hour)%Z /\ (t < t')%Z) /\
    hd_error instants = Some (now - hours * us_per_hour)%Z /\
    last instants 0%Z = (now - 1 * us_per_hour)%Z.
Proof.
  intros -> Hnow Hpos Hle.
  set (now := clock e (clock_pos w)) in *.
  set (inst := fun k : nat => (now - (hours - Z.of_nat k) * us_per_hour)%Z).
  assert (Hnth : forall k, (k < Z.to_nat hours)%nat ->
                   nth_error (map inst (seq 0 (Z.to_nat hours))) k = Some (inst k)).
  { intros k Hk. rewrite nth_error_map, nth_error_seq.
    apply Nat.ltb_lt in Hk. rewrite Hk. reflexivity. }
  assert (Hlen : List.length (map inst (seq 0 (Z.to_nat hours))) = Z.to_nat hours).
  { rewrite length_map, length_seq. reflexivity. }
  exists (readings_at e now hours (rng_pos w) 0 (Z.to_nat hours)),
         (map inst (seq 0 (Z.to_nat hours))),
         (after_draws (3 * Z.to_nat hours) (after_clock w)).
  split; [apply generate_ok; [exact Hnow | lia | exact Hle] |].
  split; [apply readings_at_length |].
  split; [exact Hlen |].
  split; [unfold readings_at; rewrite !map_map; reflexivity |].
  split; [unfold readings_at; rewrite !map_map; reflexivity |].
  split; [exact Hnth |].
  split; [| split].
  - intros k t t' Hk Hk'.
    assert (HSk : (S k < Z.to_nat hours)%nat).
    { assert (Hb : (S k < List.length (map inst (seq 0 (Z.to_nat hours))))%nat)
        by (apply nth_error_Some; unfold datetime in *; rewrite Hk'; discriminate).
      rewrite Hlen in Hb. exact Hb. }
    unfold datetime in *.
    rewrite Hnth in Hk by lia. rewrite Hnth in Hk' by exact HSk.
    injection Hk as <-. injection Hk' as <-.
    unfold inst, us_per_hour, us_per_second. lia.
  - destruct (Z.to_nat hours) as [| n] eqn:E; [lia |].
    simpl. unfold inst. simpl. rewrite Z.sub_0_r. reflexivity.
  - destruct (Z.to_nat hours) as [| n] eqn:E; [lia |].
    rewrite seq_S, map_app. cbn [map]. unfold datetime. rewrite last_last.
    unfold inst. simpl Nat.add.
    f_equal. f_equal. lia.
Qed.

Lemma generate_hours_readings_witness :
  exists (data : list Reading) (instants : list datetime) (w' : world),
    generate_historical_data env_no_model 24 world0 = (inr data, w') /\
    List.length data = Z.to_nat 24 /\
    List.length instants = Z.to_nat 24 /\
    map timestamp data = map strftime_full instants /\
    map hour data = map strftime_hm instants /\
    (forall k, (k < Z.to_nat 24)%nat ->
       nth_error instants k
       = Some (sample_now - (24 - Z.of_nat k) * us_per_hour)%Z) /\
    (forall k t t', nth_error instants k = Some t ->
       nth_error instants (S k) = Some t' ->
       t' = (t + us_per_hour)%Z /\ (t < t')%Z) /\
    hd_error instants = Some (sample_now - 24 * us_per_hour)%Z /\
    last instants 0%Z = (sample_now - 1 * us_per_hour)%Z.
Proof.
  apply (generate_hours_readings env_no_model 24 world0 sample_now).
  - reflexivity.
  - unfold valid_datetime. vm_compute. split; [discriminate | reflexivity].
  - lia.
  - vm_compute. discriminate.
Defined.

(** C3, as stated, fails: 20,000,000 hours before 2026-11-03 is before the
    year 1, and the generator raises instead of returning readings. *)
Lemma generate_far_back_raises :
  generate_historical_data env_no_model 20000000 world0
  = (inl (OverflowError "date value out of range"), mkWorld 0 1 []).
Proof.
  apply (generate_overflow env_no_model 20000000 world0).
  - lia.
  - vm_compute. discriminate.
  - vm_compute. reflexivity.
Qed.

(** The score formula respects equality of rationals. *)
Lemma emission_score_compat (co c6h6 nox no2 co' c6h6' nox' no2' : Q) :
  co == co' -> c6h6 == c6h6' -> nox == nox' -> no2 == no2' ->
  emission_score co c6h6 nox no2 == emission_score co' c6h6' nox' no2'.
Proof.
  intros H1 H2 H3 H4. unfold emission_score.
  rewrite !py_clamp_Qminmax.
  assert (Hraw : raw_score co c6h6 nox no2 == raw_score co' c6h6' nox' no2').
  { unfold raw_score, pollutant_avg. rewrite H1, H2, H3, H4. reflexivity. }
  rewrite Hraw. reflexivity.
Qed.

(** The unclamped score of a reading made with traffic factor [tf h] and
    noise [noise_of u]. *)
Lemma raw_score_generated (h : Z) (u : Q) :
  raw_score (base_co * traffic_factor h * noise_of u)
            (base_c6h6 * traffic_factor h * noise_of u)
            (base_nox * traffic_factor h * noise_of u)
            (base_no2 * traffic_factor h * noise_of u)
  == 10 - (125 # 24) * traffic_factor h * noise_of u.
Proof.
  unfold raw_score, pollutant_avg, base_co, base_c6h6, base_nox, base_no2.
  field.
Qed.

Lemma noise_of_range (u : Q) : 0 <= u <= 1 -> 0.85 <= noise_of u <= 1.15.
Proof. unfold noise_of. intros [H0 H1]. split; lra. Qed.

Lemma raw_score_generated_bounds (h : Z) (u : Q) :
  0 <= u <= 1 ->
  1.015625 <= raw_score (base_co * traffic_factor h * noise_of u)
                        (base_c6h6 * traffic_factor h * noise_of u)
                        (base_nox * traffic_factor h * noise_of u)
                        (base_no2 * traffic_factor h * noise_of u)
  <= 7.34375.
Proof.
  intros Hu. rewrite raw_score_generated.
  apply noise_of_range in Hu. destruct Hu as [Hlo Hhi].
  destruct (traffic_factor_values h) as [-> | [-> | ->]]; split; lra.
Qed.

(** C2. For every generated reading the score is the clamp to [0, 10] of
    [10 * (1 - pollutant_avg)], with
    [pollutant_avg = (co/5 + c6h6/15 + nox/400 + no2/200) / 4] taken on the
    unrounded pollutant values of its iteration; so it lies between 0 and 10
    whatever the draws (and so does the two-decimal value stored in the
    reading), and it is a function of the four pollutant values alone. *)
Theorem generated_score_clamped :
  (forall (e : env) (hours : Z) (w w' : world) (data : list Reading)
          (k : nat) (r : Reading),
      generate_historical_data e hours w = (inr data, w') ->
      nth_error data k = Some r ->
      exists s : Sample,
        sample_hour e (clock e (clock_pos w)) (hours - Z.of_nat k)
                    (after_draws (3 * k) (after_clock w))
        = (inr s, after_draws (3 * S k) (after_clock w)) /\
        r = to_reading s /\
        s_score s
        == Qmax 0 (Qmin 10 (10 * (1 - (s_co s / 5 + s_c6h6 s / 15
                                       + s_nox s / 400 + s_no2 s / 200) / 4))) /\
        0 <= s_score s <= 10 /\
        score r = py_round (s_score s) 2 /\
        0 <= score r <= 10 /\
        s_score s = emission_score (s_co s) (s_c6h6 s) (s_nox s) (s_no2 s)) /\
  (forall co c6h6 nox no2 co' c6h6' nox' no2' : Q,
      co == co' -> c6h6 == c6h6' -> nox == nox' -> no2 == no2' ->
      emission_score co c6h6 nox no2 == emission_score co' c6h6' nox' no2').
Proof.
  split; [| exact emission_score_compat].
  intros e hours w w' data k r Hrun Hnth.
  destruct (generated_reading e hours w w' data k r Hrun Hnth) as [_ [Hr Hs]].
  eexists. split; [exact Hs |]. split; [exact Hr |].
  subst r. cbn [score to_reading s_score s_co s_c6h6 s_nox s_no2 sample_at].
  unfold emission_score at 1 2.
  split; [apply py_clamp_Qminmax |].
  split; [apply py_clamp_range |].
  split; [reflexivity |].
  split; [apply py_round2_range; apply py_clamp_range | reflexivity].
Qed.

Lemma generated_score_clamped_witness :
  exists r : Reading,
    nth_error
      (readings_at env_no_model sample_now 3 0 0 3) 0 = Some r /\
    0 <= score r <= 10.
Proof.
  destruct generated_score_clamped as [Hscore _].
  destruct (Hscore env_no_model 3%Z world0
              (after_draws 9 (after_clock world0))
              (readings_at env_no_model sample_now 3 0 0 3) 0%nat
              (to_reading (sample_at env_no_model sample_now 3 0)))
    as [s [_ [_ [_ [_ [_ [Hrange _]]]]]]].
  - vm_compute. reflexivity.
  - vm_compute. reflexivity.
  - eexists. split; [vm_compute; reflexivity | exact Hrange].
Defined.




(** C10. For every generated reading whose noise draw lies in [0, 1] (so
    that the noise factor lies in [0.85, 1.15]) the unclamped score
    [10 * (1 - pollutant_avg)] lies between 1.015625 (traffic factor 1.5,
    noise 1.15) and 7.34375 (traffic factor 0.6, noise 0.85), strictly
    between 0 and 10, and the clamp returns it unchanged. *)
Theorem generated_clamp_inactive :
  (forall (e : env) (hours : Z) (w w' : world) (data : list Reading)
          (k : nat) (r : Reading),
      generate_historical_data e hours w = (inr data, w') ->
      nth_error data k = Some r ->
      0 <= draws e (3 * k + rng_pos w) <= 1 ->
      exists s : Sample,
        sample_hour e (clock e (clock_pos w)) (hours - Z.of_nat k)
                    (after_draws (3 * k) (after_clock w))
        = (inr s, after_draws (3 * S k) (after_clock w)) /\
        r = to_reading s /\
        1.015625 <= raw_score (s_co s) (s_c6h6 s) (s_nox s) (s_no2 s) <= 7.34375 /\
        0 < raw_score (s_co s) (s_c6h6 s) (s_nox s) (s_no2 s) /\
        raw_score (s_co s) (s_c6h6 s) (s_nox s) (s_no2 s) < 10 /\
        s_score s = raw_score (s_co s) (s_c6h6 s) (s_nox s) (s_no2 s)) /\
  raw_score (2.5 * 1.5 * 1.15) (8.0 * 1.5 * 1.15) (200 * 1.5 * 1.15)
            (110 * 1.5 * 1.15) == 1.015625 /\
  raw_score (2.5 * 0.6 * 0.85) (8.0 * 0.6 * 0.85) (200 * 0.6 * 0.85)
            (110 * 0.6 * 0.85) == 7.34375.
Proof.
  split; [| split; reflexivity].
  intros e hours w w' data k r Hrun Hnth Hu.
  destruct (generated_reading e hours w w' data k r Hrun Hnth) as [_ [Hr Hs]].
  eexists. split; [exact Hs |]. split; [exact Hr |].
  cbn [s_co s_c6h6 s_nox s_no2 s_score sample_at].
  unfold emission_score.
  pose proof (raw_score_generated_bounds
                (dt_hour (clock e (clock_pos w)
                          - (hours - Z.of_nat k) * us_per_hour)%Z)
                (draws e (3 * k + rng_pos w)) Hu) as Hb.
  set (raw := raw_score _ _ _ _) in *.
  destruct Hb as [Hlo Hhi].
  assert (H0 : 0 < raw) by lra.
  assert (H10 : raw < 10) by lra.
  split; [split; assumption |].
  split; [exact H0 |]. split; [exact H10 |].
  apply py_clamp_inactive; assumption.
Qed.

Lemma generated_clamp_inactive_witness :
  exists s : Sample,
    to_reading (sample_at env_no_model sample_now 3 0) = to_reading s /\
    s_score s = raw_score (s_co s) (s_c6h6 s) (s_nox s) (s_no2 s).
Proof.
  destruct generated_clamp_inactive as [Hgen _].
  destruct (Hgen env_no_model 3%Z world0
              (after_draws 9 (after_clock world0))
              (readings_at env_no_model sample_now 3 0 0 3) 0%nat
              (to_reading (sample_at env_no_model sample_now 3 0)))
    as [s [_ [Hr [_ [_ [_ Hscore]]]]]].
  - vm_compute. reflexivity.
  - vm_compute. reflexivity.
  - vm_compute. split; discriminate.
  - exists s. split; [exact Hr | exact Hscore].
Defined.

(** ** The scoring pipeline *)

Lemma index_from_end_last {A : Type} (init : list A) (x : A) :
  index_from_end (init ++ [x]) 1 = inr x.
Proof. unfold index_from_end. rewrite rev_app_distr. reflexivity. Qed.

Lemma index_from_end_second {A : Type} (l : list A) :
  (2 <= List.length l)%nat -> exists y, index_from_end l 2 = inr y.
Proof.
  intros Hlen. unfold index_from_end.
  destruct (nth_error (rev l) (2 - 1)) as [y |] eqn:E; [exists y; reflexivity |].
  apply nth_error_None in E. rewrite length_rev in E. simpl in E. lia.
Qed.

Lemma fallback_score_run (e : env) (current : Reading) (w : world) :
  fallback_score e current w
  = (inr (score current * (0.9 + (1.1 - 0.9) * draws e (rng_pos w))),
     after_draws 1 w).
Proof. reflexivity. Qed.

Lemma scoring_run (e : env) (init : list Reading) (current : Reading) (w : world) :
  scoring e (init ++ [current]) w
  = match predict_score e (init ++ [current]) current w with
    | (inl ex, w') => (inl ex, w')
    | (inr p, w') => (inr (current, p), w')
    end.
Proof.
  unfold scoring, bind, lift. rewrite index_from_end_last.
  destruct (predict_score e (init ++ [current]) current w) as [[ex | p] w'];
    reflexivity.
Qed.

(** Fewer than six readings: the fallback, at once. *)
Lemma predict_score_short (e : env) (historical : list Reading)
    (current : Reading) (w : world) :
  (List.length historical < 6)%nat ->
  predict_score e historical current w = fallback_score e current w.
Proof.
  intros Hlen. unfold predict_score.
  apply Nat.leb_gt in Hlen. rewrite Hlen. reflexivity.
Qed.

(** Six readings or more but an artifact missing: the clock is read, then
    the fallback. *)
Lemma predict_score_no_artifact (e : env) (historical : list Reading)
    (current : Reading) (w : world) :
  (6 <= List.length historical)%nat ->
  model e = None \/ scaler e = None ->
  predict_score e historical current w
  = fallback_score e current (after_clock w).
Proof.
  intros Hlen Hnone. unfold predict_score.
  destruct (index_from_end_second historical) as [lag Hlag]; [lia |].
  apply Nat.leb_le in Hlen. rewrite Hlen.
  unfold bind at 1. unfold lift at 1. rewrite Hlag.
  unfold bind at 1. unfold datetime_now at 1. fold (after_clock w).
  destruct Hnone as [Hm | Hs].
  - rewrite Hm. reflexivity.
  - rewrite Hs. destruct (model e); reflexivity.
Qed.

(** Six readings or more and both artifacts: transform, predict, clamp. *)
Lemma predict_score_model (e : env) (historical : list Reading)
    (current lag_data : Reading) (w : world) (m : predictor) (s : transformer) :
  (6 <= List.length historical)%nat ->
  model e = Some m -> scaler e = Some s ->
  index_from_end historical 2 = inr lag_data ->
  predict_score e historical current w
  = match features_of historical current lag_data (clock e (clock_pos w)) with
    | inl ex => (inl ex, after_clock w)
    | inr features =>
        let w1 := mkWorld (rng_pos w) (S (clock_pos w))
                          (calls w ++ [CallTransform features]) in
        match s features with
        | inl ex => (inl ex, w1)
        | inr scaled =>
            let w2 := mkWorld (rng_pos w) (S (clock_pos w))
                              ((calls w ++ [CallTransform features])
                               ++ [CallPredict scaled]) in
            match m scaled with
            | inl ex => (inl ex, w2)
            | inr predictions =>
                match index_first predictions with
                | inl ex => (inl ex, w2)
                | inr p => (inr (py_max 0 (py_min 10 p)), w2)
                end
            end
        end
    end.
Proof.
  intros Hlen Hm Hs Hlag. unfold predict_score.
  apply Nat.leb_le in Hlen. rewrite Hlen.
  unfold bind at 1. unfold lift at 1. rewrite Hlag.
  unfold bind at 1. unfold datetime_now at 1. fold (after_clock w).
  rewrite Hm, Hs. unfold features_of.
  unfold bind at 1. unfold lift at 1.
  destruct (prepare_features _ _ _ _) as [ex | features]; [reflexivity |].
  unfold bind at 1. unfold scaler_transform at 1. cbn [rng_pos clock_pos calls after_clock].
  destruct (s features) as [ex | scaled]; [reflexivity |].
  unfold bind at 1. unfold model_predict at 1. cbn [rng_pos clock_pos calls].
  destruct (m scaled) as [ex | predictions]; [reflexivity |].
  unfold bind at 1. unfold lift at 1.
  destruct (index_first predictions) as [ex | p]; reflexivity.
Qed.

(** The fallback path: the jittered current score, and no call logged. *)
Lemma scoring_fallback (e : env) (init : list Reading) (current : Reading)
    (w : world) :
  (List.length (init ++ [current]) < 6)%nat
  \/ model e = None \/ scaler e = None ->
  exists w',
    scoring e (init ++ [current]) w
    = (inr (current,
            score current * (0.9 + (1.1 - 0.9) * draws e (rng_pos w))), w') /\
    calls w' = calls w.
Proof.
  intros Hcase. rewrite scoring_run.
  destruct (Nat.lt_ge_cases (List.length (init ++ [current])) 6) as [Hlt | Hge].
  - rewrite (predict_score_short _ _ _ _ Hlt), fallback_score_run.
    eexists. split; reflexivity.
  - assert (Hnone : model e = None \/ scaler e = None)
      by (destruct Hcase; [lia | assumption]).
    rewrite (predict_score_no_artifact _ _ _ _ Hge Hnone), fallback_score_run.
    eexists. split; reflexivity.
Qed.

(** C4. With fewer than 6 readings, or with the model or the scaler absent,
    neither [scaler.transform] nor [model.predict] is called and the
    predicted score is [current.score * U(0.9, 1.1)], not clamped; with both
    artifacts and at least 6 readings it is the clamp to [0, 10] of
    [model.predict(scaler.transform(vector))], the vector being the row of 16
    features. The scores are stated for a sequence that has a current
    (last) reading; that nothing is called holds for every sequence. *)
Theorem scoring_fallback_or_model (e : env) (init : list Reading)
    (current : Reading) (w : world) :
  (((List.length (init ++ [current]) < 6)%nat
    \/ model e = None \/ scaler e = None) ->
   exists w',
     scoring e (init ++ [current]) w
     = (inr (current,
             score current * (0.9 + (1.1 - 0.9) * draws e (rng_pos w))), w') /\
     calls w' = calls w) /\
  (forall (m : predictor) (s : transformer),
      (6 <= List.length (init ++ [current]))%nat ->
      model e = Some m -> scaler e = Some s ->
      exists (lag_data : Reading) (features : matrix) (row : list Q),
        index_from_end (init ++ [current]) 2 = inr lag_data /\
        features_of (init ++ [current]) current lag_data (clock e (clock_pos w))
        = inr features /\
        features = [row] /\ List.length row = 16%nat /\
        forall (scaled : matrix) (p : Q) (rest : list Q),
          s features = inr scaled -> m scaled = inr (p :: rest) ->
          exists w',
            scoring e (init ++ [current]) w
            = (inr (current, py_max 0 (py_min 10 p)), w') /\
            calls w' = calls w ++ [CallTransform features; CallPredict scaled] /\
            py_max 0 (py_min 10 p) == Qmax 0 (Qmin 10 p)) /\
  (forall historical : list Reading,
      ((List.length historical < 6)%nat \/ model e = None \/ scaler e = None) ->
      calls (snd (scoring e historical w)) = calls w).
Proof.
  split; [apply scoring_fallback | split].
  2:{ intros historical Hcase.
      destruct historical as [| x l] using rev_ind; [reflexivity |].
      destruct (scoring_fallback e l x w Hcase) as [w' [E Hc]].
      rewrite E. exact Hc. }
  - intros m s Hlen Hm Hs.
    destruct (index_from_end_second (init ++ [current])) as [lag Hlag]; [lia |].
    exists lag. unfold features_of at 1. rewrite prepare_features_value.
    eexists. eexists. split; [exact Hlag |].
    split; [reflexivity |]. split; [reflexivity |]. split; [reflexivity |].
    intros scaled p rest Hscaled Hpred.
    rewrite scoring_run, (predict_score_model _ _ _ _ _ _ _ Hlen Hm Hs Hlag).
    unfold features_of. rewrite prepare_features_value.
    cbv zeta. rewrite Hscaled, Hpred. cbn [index_first].
    eexists. split; [reflexivity |].
    split; [cbn [calls]; rewrite <- app_assoc; reflexivity |].
    apply py_clamp_Qminmax.
Qed.

Lemma scoring_fallback_or_model_witness :
  (exists w',
     scoring env_no_model ([] ++ [clean_reading]) world0
     = (inr (clean_reading, 10 * (0.9 + (1.1 - 0.9) * (1 # 2))), w') /\
     calls w' = []) /\
  (exists w',
     scoring env_stub (repeat clean_reading 5 ++ [clean_reading]) world0
     = (inr (clean_reading, py_max 0 (py_min 10 7.2)), w')).
Proof.
  split.
  - destruct (scoring_fallback_or_model env_no_model [] clean_reading world0)
      as [Hfb _].
    apply Hfb. left. simpl. lia.
  - destruct (scoring_fallback_or_model env_stub (repeat clean_reading 5)
                clean_reading world0) as [_ [Hm _]].
    destruct (Hm (fun _ => inr [7.2]) (fun x => inr x))
      as [lag [features [row [_ [_ [_ [_ Hrun]]]]]]].
    + simpl. lia.
    + reflexivity.
    + reflexivity.
    + destruct (Hrun features 7.2 []) as [w' [Hs _]]; [reflexivity | reflexivity |].
      exists w'. exact Hs.
Defined.

(** The fallback is not clamped: a current score of 10 and a draw of 0.99
    give a predicted score of 10.98. *)
Example fallback_above_ten :
  fst (scoring env_high_draws six_clean world0)
  = inr (clean_reading, 10 * (0.9 + (1.1 - 0.9) * 0.99))
  /\ 10 * (0.9 + (1.1 - 0.9) * 0.99) == 10.98.
Proof. split; reflexivity. Qed.

(** ** The endpoint *)

Lemma generate_inr_length (e : env) (hours : Z) (w w' : world)
    (data : list Reading) :
  generate_historical_data e hours w = (inr data, w') ->
  List.length data = Z.to_nat hours.
Proof.
  intros Hrun.
  destruct (generate_cases e hours w) as [[msg [w1 [E _]]] | [E _]];
    rewrite E in Hrun; [discriminate |].
  injection Hrun as <- <-. apply readings_at_length.
Qed.

Lemma refresh_try_run (e : env) (w : world) :
  refresh_try e w
  = match generate_historical_data e 24 w with
    | (inl ex, w1) => (inl ex, w1)
    | (inr historical, w1) =>
        match scoring e historical w1 with
        | (inl ex, w2) => (inl ex, w2)
        | (inr r, w2) => (inr (success_body historical (fst r) (snd r)), w2)
        end
    end.
Proof.
  unfold refresh_try. unfold bind at 1.
  destruct (generate_historical_data e 24 w) as [[ex | historical] w1];
    [reflexivity |].
  unfold bind at 1.
  destruct (scoring e historical w1) as [[ex | r] w2]; reflexivity.
Qed.

Lemma success_body_shape (historical : list Reading) (current : Reading)
    (predicted_score : Q) :
  exists cur_fields pred_fields : list (string * json),
    success_body historical current predicted_score
    = JObj [ ("success", JBool true);
             ("current", JObj cur_fields);
             ("prediction", JObj pred_fields);
             ("historical",
              JList (map (fun h => JObj [ ("time", JStr (hour h));
                                          ("score", JNum (score h)) ])
                         historical)) ]%string /\
    assoc "score" cur_fields = Some (JNum (py_round (score current) 2)) /\
    assoc "status" cur_fields = Some (JStr (fst (classify (score current)))) /\
    assoc "color" cur_fields = Some (JStr (snd (classify (score current)))) /\
    assoc "score" pred_fields = Some (JNum (py_round predicted_score 2)) /\
    assoc "status" pred_fields = Some (JStr (fst (classify predicted_score))) /\
    assoc "color" pred_fields = Some (JStr (snd (classify predicted_score))).
Proof.
  unfold success_body.
  destruct (classify (score current)) as [status color].
  destruct (classify predicted_score) as [pred_status pred_color].
  eexists. eexists. split; [reflexivity |]. repeat split.
Qed.

(** C9. When generating the data or scoring raises, the endpoint answers
    with the body [{"success": false, "error": str(e)}] and status 500;
    otherwise with status 200 and a body holding ["success": true], the
    current reading, the prediction and a historical list of 24 entries.
    Every answer is of one of these two forms. *)
Theorem refresh_data_outcomes (e : env) (w : world) :
  (forall (ex : exn) (w1 : world),
      generate_historical_data e 24 w = (inl ex, w1) ->
      refresh_data e w
      = ((JObj [ ("success", JBool false);
                 ("error", JStr (exn_str ex)) ]%string, 500%Z), w1)) /\
  (forall (historical : list Reading) (w1 : world) (ex : exn) (w2 : world),
      generate_historical_data e 24 w = (inr historical, w1) ->
      scoring e historical w1 = (inl ex, w2) ->
      refresh_data e w
      = ((JObj [ ("success", JBool false);
                 ("error", JStr (exn_str ex)) ]%string, 500%Z), w2)) /\
  (forall (historical : list Reading) (w1 : world) (current : Reading)
          (predicted : Q) (w2 : world),
      generate_historical_data e 24 w = (inr historical, w1) ->
      scoring e historical w1 = (inr (current, predicted), w2) ->
      exists (cur_fields pred_fields : list (string * json)) (items : list json),
        refresh_data e w
        = ((JObj [ ("success", JBool true);
                   ("current", JObj cur_fields);
                   ("prediction", JObj pred_fields);
                   ("historical", JList items) ]%string, 200%Z), w2) /\
        List.length items = 24%nat /\
        items = map (fun h => JObj [ ("time", JStr (hour h));
                                     ("score", JNum (score h)) ]%string)
                    historical /\
        assoc "score" cur_fields = Some (JNum (py_round (score current) 2)) /\
        assoc "status" cur_fields = Some (JStr (fst (classify (score current)))) /\
        assoc "score" pred_fields = Some (JNum (py_round predicted 2)) /\
        assoc "status" pred_fields = Some (JStr (fst (classify predicted)))) /\
  ((exists ex : exn,
       fst (refresh_data e w)
       = (JObj [ ("success", JBool false);
                 ("error", JStr (exn_str ex)) ]%string, 500%Z))
   \/
   (exists (body : json) (items : list json),
       fst (refresh_data e w) = (body, 200%Z) /\
       json_get "success" body = Some (JBool true) /\
       json_get "historical" body = Some (JList items) /\
       List.length items = 24%nat)).
Proof.
  unfold refresh_data. rewrite refresh_try_run.
  destruct (generate_historical_data e 24 w) as [[gex | historical] w1] eqn:Hgen.
  - split; [| split; [| split]].
    + intros ex w1' H. injection H as <- <-. reflexivity.
    + intros h w1' ex w2 H. discriminate.
    + intros h w1' c p w2 H. discriminate.
    + left. exists gex. reflexivity.
  - pose proof (generate_inr_length e 24 w w1 historical Hgen) as Hlen.
    destruct (scoring e historical w1) as [[sex | [current predicted]] w2] eqn:Hsc.
    + split; [| split; [| split]].
      * intros ex w1' H. discriminate.
      * intros h w1' ex w2' H Hs. injection H as <- <-.
        rewrite Hsc in Hs. injection Hs as <- <-. reflexivity.
      * intros h w1' c p w2' H Hs. injection H as <- <-.
        rewrite Hsc in Hs. discriminate.
      * left. exists sex. reflexivity.
    + cbn [fst snd].
      destruct (success_body_shape historical current predicted)
        as [cf [pf [Hbody [Hcs [Hct [_ [Hps [Hpt _]]]]]]]].
      split; [| split; [| split]].
      * intros ex w1' H. discriminate.
      * intros h w1' ex w2' H Hs. injection H as <- <-.
        rewrite Hsc in Hs. discriminate.
      * intros h w1' c p w2' H Hs. injection H as <- <-.
        rewrite Hsc in Hs. injection Hs as <- <- <-.
        exists cf, pf.
        exists (map (fun h => JObj [ ("time", JStr (hour h));
                                     ("score", JNum (score h)) ]%string)
                    historical).
        rewrite Hbody. split; [reflexivity |].
        split; [rewrite length_map; exact Hlen |].
        repeat split; assumption.
      * right. rewrite Hbody. eexists. eexists.
        split; [reflexivity |]. split; [reflexivity |].
        split; [reflexivity |]. rewrite length_map. exact Hlen.
Qed.

Lemma refresh_data_outcomes_witness :
  snd (fst (refresh_data env_early_clock world0)) = 500%Z /\
  fst (refresh_data env_bad_scaler world0)
  = (JObj [ ("success", JBool false);
            ("error", JStr "X has 16 features, but StandardScaler is expecting 12 features as input.") ]%string,
     500%Z) /\
  snd (fst (refresh_data env_stub world0)) = 200%Z.
Proof.
  split; [| split].
  - destruct (refresh_data_outcomes env_early_clock world0) as [Hgen _].
    rewrite (Hgen (OverflowError "date value out of range") (mkWorld 0 1 []));
      [reflexivity | vm_compute; reflexivity].
  - destruct (refresh_data_outcomes env_bad_scaler world0) as [_ [Hsc _]].
    destruct (scoring env_bad_scaler
                (readings_at env_bad_scaler sample_now 24 0 0 24)
                (after_draws 72 (after_clock world0)))
      as [[ex | r] w2] eqn:E.
    + rewrite (Hsc (readings_at env_bad_scaler sample_now 24 0 0 24)
                   (after_draws 72 (after_clock world0)) ex w2);
        [| vm_compute; reflexivity | exact E].
      vm_compute in E. injection E as <- _. reflexivity.
    + vm_compute in E. discriminate.
  - destruct (refresh_data_outcomes env_stub world0) as [_ [_ [Hok _]]].
    destruct (scoring env_stub
                (readings_at env_stub sample_now 24 0 0 24)
                (after_draws 72 (after_clock world0)))
      as [[ex | [current predicted]] w2] eqn:E.
    + vm_compute in E. discriminate.
    + destruct (Hok (readings_at env_stub sample_now 24 0 0 24)
                    (after_draws 72 (after_clock world0)) current predicted w2)
        as [cf [pf [items [Hrun _]]]];
        [vm_compute; reflexivity | exact E |].
      rewrite Hrun. reflexivity.
Defined.

(** The spec's end-to-end case: with the scaler stubbed to the identity and
    the model to 7.2 the prediction is Safe and green. *)
Example refresh_data_stub_prediction :
  exists body : json,
    fst (refresh_data env_stub world0) = (body, 200%Z) /\
    json_get "prediction" body
    = Some (JObj [ ("score", JNum 7.20); ("status", JStr "Safe");
                   ("color", JStr "green") ]%string).
Proof. eexists. split; vm_compute; reflexivity. Qed.

(** * Further properties *)

(** ** Rounding *)

Lemma round_half_even_lower (y : Q) (a : Z) :
  inject_Z a <= y -> (a <= round_half_even y)%Z.
Proof.
  intros Ha. unfold round_half_even.
  assert (Hf : (a <= Qfloor y)%Z).
  { rewrite <- (Qfloor_Z a). apply Qfloor_resp_le. exact Ha. }
  destruct (Qcompare (y - inject_Z (Qfloor y)) (1 # 2));
    [destruct (Z.even (Qfloor y)) | |]; lia.
Qed.

Lemma round_half_even_upper (y : Q) (b : Z) :
  y <= inject_Z b -> (round_half_even y <= b)%Z.
Proof.
  intros Hb. unfold round_half_even.
  pose proof (Qfloor_le y) as Hfl.
  assert (Hfb : (Qfloor y <= b)%Z).
  { rewrite <- (Qfloor_Z b). apply Qfloor_resp_le. exact Hb. }
  assert (Hstep : 0 < y - inject_Z (Qfloor y) -> (Qfloor y + 1 <= b)%Z).
  { intros Hpos.
    assert (Hlt : inject_Z (Qfloor y) < inject_Z b) by lra.
    rewrite <- Zlt_Qlt in Hlt. lia. }
  destruct (Qcompare (y - inject_Z (Qfloor y)) (1 # 2)) eqn:Hc.
  - apply Qeq_alt in Hc.
    destruct (Z.even (Qfloor y)); [lia |].
    apply Hstep. lra.
  - lia.
  - apply Qgt_alt in Hc. apply Hstep. lra.
Qed.



Lemma py_round2_bounds (x : Q) (a b : Z) :
  a # 100 <= x -> x <= b # 100 -> a # 100 <= py_round x 2 <= b # 100.
Proof.
  intros Ha Hb. unfold py_round.
  change (Pos.pow 10 (Pos.of_nat 2)) with 100%positive.
  assert (Ha' : inject_Z a <= x * inject_Z 100).
  { unfold Qle in *. cbn [Qnum Qden Qmult inject_Z] in *. lia. }
  assert (Hb' : x * inject_Z 100 <= inject_Z b).
  { unfold Qle in *. cbn [Qnum Qden Qmult inject_Z] in *. lia. }
  apply round_half_even_lower in Ha'. apply round_half_even_upper in Hb'.
  unfold Qle. simpl. split; lia.
Qed.

Lemma py_round1_bounds (x : Q) (a b : Z) :
  a # 10 <= x -> x <= b # 10 -> a # 10 <= py_round x 1 <= b # 10.
Proof.
  intros Ha Hb. unfold py_round.
  change (Pos.pow 10 (Pos.of_nat 1)) with 10%positive.
  assert (Ha' : inject_Z a <= x * inject_Z 10).
  { unfold Qle in *. cbn [Qnum Qden Qmult inject_Z] in *. lia. }
  assert (Hb' : x * inject_Z 10 <= inject_Z b).
  { unfold Qle in *. cbn [Qnum Qden Qmult inject_Z] in *. lia. }
  apply round_half_even_lower in Ha'. apply round_half_even_upper in Hb'.
  unfold Qle. simpl. split; lia.
Qed.


(** A value with two decimals is its own rounding. *)
Lemma py_round2_fixed (z : Z) : py_round (z # 100) 2 = z # 100.
Proof.
  unfold py_round.
  change (Pos.pow 10 (Pos.of_nat 2)) with 100%positive.
  f_equal. unfold round_half_even.
  assert (Hfl : Qfloor ((z # 100) * inject_Z 100) = z).
  { unfold Qfloor. cbn [Qnum Qden Qmult inject_Z].
    change (Z.pos (100 * 1)) with 100%Z.
    apply Z.div_mul. discriminate. }
  rewrite Hfl.
  assert (Hc : Qcompare ((z # 100) * inject_Z 100 - inject_Z z) (1 # 2) = Lt).
  { assert (E : (z # 100) * inject_Z 100 == inject_Z z).
    { unfold Qeq. cbn [Qnum Qden Qmult inject_Z]. lia. }
    rewrite E.
    setoid_replace (inject_Z z - inject_Z z) with 0 by ring. reflexivity. }
  rewrite Hc. reflexivity.
Qed.

Lemma py_round2_idempotent (x : Q) : py_round (py_round x 2) 2 = py_round x 2.
Proof.
  unfold py_round at 2 3.
  change (Pos.pow 10 (Pos.of_nat 2)) with 100%positive.
  apply py_round2_fixed.
Qed.

(** ** Offsets of whole hours *)

Lemma dt_hour_sub (now i : Z) :
  dt_hour (now - i * us_per_hour)%Z = ((dt_hour now - i) mod 24)%Z.
Proof.
  unfold dt_hour.
  replace (now - i * us_per_hour)%Z with (now + (- i) * us_per_hour)%Z by ring.
  rewrite Z.div_add by (unfold us_per_hour, us_per_second; lia).
  rewrite Zminus_mod_idemp_l. reflexivity.
Qed.

Lemma dt_minute_sub (now i : Z) :
  dt_minute (now - i * us_per_hour)%Z = dt_minute now.
Proof.
  unfold dt_minute.
  replace (now - i * us_per_hour)%Z with (now + (- i * 60) * us_per_minute)%Z
    by (unfold us_per_hour, us_per_minute; ring).
  rewrite Z.div_add by (unfold us_per_minute, us_per_second; lia).
  replace (now / us_per_minute + - i * 60)%Z
    with (now / us_per_minute + (- i) * 60)%Z by ring.
  apply Z_mod_plus_full.
Qed.

Lemma dt_second_sub (now i : Z) :
  dt_second (now - i * us_per_hour)%Z = dt_second now.
Proof.
  unfold dt_second.
  replace (now - i * us_per_hour)%Z with (now + (- i * 3600) * us_per_second)%Z
    by (unfold us_per_hour; ring).
  rewrite Z.div_add by (unfold us_per_second; lia).
  replace (now / us_per_second + - i * 3600)%Z
    with (now / us_per_second + (- i * 60) * 60)%Z by ring.
  apply Z_mod_plus_full.
Qed.

(** ** More on the generator *)

(** X1. For [hours <= 0] the range of the loop is empty: the generator
    returns the empty list, having read the clock once and drawn nothing. *)
Theorem generate_nonpositive_hours (e : env) (hours : Z) (w : world) :
  (hours <= 0)%Z ->
  generate_historical_data e hours w = (inr [], after_clock w).
Proof.
  intros Hle. unfold generate_historical_data, bind, datetime_now, range_down.
  replace (Z.to_nat hours) with 0%nat by lia. reflexivity.
Qed.

Lemma generate_nonpositive_hours_witness :
  generate_historical_data env_no_model (-3) world0 = (inr [], mkWorld 0 1 []).
Proof. apply (generate_nonpositive_hours env_no_model (-3) world0). lia. Defined.

(** The oldest offset out of range: the first iteration raises. *)
Lemma generate_fails_first (e : env) (hours : Z) (w : world) :
  (0 < hours)%Z ->
  (clock e (clock_pos w) < hours * us_per_hour)%Z ->
  exists msg,
    generate_historical_data e hours w = (inl (OverflowError msg), after_clock w).
Proof.
  intros Hpos Hlt.
  unfold generate_historical_data, bind, datetime_now.
  fold (after_clock w).
  rewrite (range_down_pos hours Hpos), for_each_cons, loop_body_run.
  destruct (sample_hour_cases e (clock e (clock_pos w)) hours (after_clock w))
    as [[msg [E _]] | Hok].
  - rewrite E. exists msg. reflexivity.
  - exfalso. apply offset_ok_valid in Hok. unfold valid_datetime in Hok. lia.
Qed.

(** X2. With a valid clock value the generator is all or nothing. When the
    oldest instant [now - hours] is representable it returns [hours]
    readings, having consumed exactly [3 * hours] draws, read the clock once
    and logged no call; otherwise it raises [OverflowError] in its first
    iteration, before any draw. *)
Theorem generate_all_or_nothing (e : env) (hours : Z) (w : world) :
  valid_datetime (clock e (clock_pos w)) ->
  (0 < hours)%Z ->
  ((hours * us_per_hour <= clock e (clock_pos w))%Z ->
   exists data w',
     generate_historical_data e hours w = (inr data, w') /\
     List.length data = Z.to_nat hours /\
     rng_pos w' = (3 * Z.to_nat hours + rng_pos w)%nat /\
     clock_pos w' = S (clock_pos w) /\
     calls w' = calls w) /\
  ((clock e (clock_pos w) < hours * us_per_hour)%Z ->
   exists msg w',
     generate_historical_data e hours w = (inl (OverflowError msg), w') /\
     rng_pos w' = rng_pos w /\
     clock_pos w' = S (clock_pos w) /\
     calls w' = calls w).
Proof.
  intros Hnow Hpos. split.
  - intros Hle.
    rewrite (generate_ok e hours w Hnow (Z.lt_le_incl _ _ Hpos) Hle).
    eexists. eexists. split; [reflexivity |].
    split; [apply readings_at_length |]. repeat split.
  - intros Hlt.
    destruct (generate_fails_first e hours w Hpos Hlt) as [msg E].
    exists msg, (after_clock w). rewrite E. repeat split.
Qed.

Lemma generate_all_or_nothing_witness :
  (exists data w',
     generate_historical_data env_no_model 24 world0 = (inr data, w') /\
     List.length data = 24%nat /\ rng_pos w' = 72%nat) /\
  (exists msg w',
     generate_historical_data env_no_model 20000000 world0
     = (inl (OverflowError msg), w') /\ rng_pos w' = 0%nat).
Proof.
  assert (Hv : valid_datetime (clock env_no_model (clock_pos world0))).
  { unfold valid_datetime. vm_compute. split; [discriminate | reflexivity]. }
  split.
  - destruct (generate_all_or_nothing env_no_model 24 world0 Hv) as [Hok _];
      [lia |].
    destruct Hok as [data [w' [E [Hlen [Hr _]]]]]; [vm_compute; discriminate |].
    exists data, w'. repeat split; assumption.
  - destruct (generate_all_or_nothing env_no_model 20000000 world0 Hv)
      as [_ Hfail]; [lia |].
    destruct Hfail as [msg [w' [E [Hr _]]]]; [vm_compute; reflexivity |].
    exists msg, w'. split; assumption.
Defined.

(** X3. In a successful run the reading at index [k] is labelled with the
    hour of the day [(hour(now) - (hours - k)) mod 24] and with the minute of
    [now] itself: all the labels of a run share their minutes (and the full
    timestamps their seconds) with the clock value. *)
Theorem generated_labels (e : env) (hours : Z) (w w' : world)
    (data : list Reading) (k : nat) (r : Reading) :
  generate_historical_data e hours w = (inr data, w') ->
  nth_error data k = Some r ->
  exists t : datetime,
    t = (clock e (clock_pos w) - (hours - Z.of_nat k) * us_per_hour)%Z /\
    timestamp r = strftime_full t /\
    dt_hour t = ((dt_hour (clock e (clock_pos w)) - (hours - Z.of_nat k)) mod 24)%Z /\
    dt_minute t = dt_minute (clock e (clock_pos w)) /\
    dt_second t = dt_second (clock e (clock_pos w)) /\
    hour r
    = (fmt2 ((dt_hour (clock e (clock_pos w)) - (hours - Z.of_nat k)) mod 24)
       ++ ":" ++ fmt2 (dt_minute (clock e (clock_pos w))))%string.
Proof.
  intros Hrun Hnth.
  destruct (generated_reading e hours w w' data k r Hrun Hnth) as [_ [Hr _]].
  eexists. split; [reflexivity |]. subst r.
  cbn [timestamp hour to_reading s_timestamp sample_at].
  split; [reflexivity |].
  split; [apply dt_hour_sub |].
  split; [apply dt_minute_sub |].
  split; [apply dt_second_sub |].
  unfold strftime_hm. rewrite dt_hour_sub, dt_minute_sub. reflexivity.
Qed.

Lemma generated_labels_witness :
  exists t : datetime,
    hour (to_reading (sample_at env_no_model sample_now 3 0))
    = (fmt2 ((dt_hour sample_now - 3) mod 24) ++ ":" ++ fmt2 (dt_minute sample_now))%string
    /\ dt_minute t = 55%Z.
Proof.
  destruct (generated_labels env_no_model 3%Z world0
              (after_draws 9 (after_clock world0))
              (readings_at env_no_model sample_now 3 0 0 3) 0%nat
              (to_reading (sample_at env_no_model sample_now 3 0)))
    as [t [_ [_ [_ [Hm [_ Hlab]]]]]].
  - vm_compute. reflexivity.
  - vm_compute. reflexivity.
  - exists t. split; [exact Hlab | rewrite Hm; vm_compute; reflexivity].
Defined.



(** ** The traffic pattern of a day *)

Lemma hour_at_mod (now i : Z) :
  hour_at now i = ((dt_hour now - i) mod 24)%Z.
Proof. apply dt_hour_sub. Qed.

Lemma day_count_hours_values (h0 : Z) :
  (0 <= h0 <= 23)%Z ->
  day_count_hours h0 1.5 = 6%nat /\
  day_count_hours h0 0.6 = 8%nat /\
  day_count_hours h0 1.0 = 10%nat.
Proof.
  intros Hh.
  assert (Hcases : (h0 = 0 \/ h0 = 1 \/ h0 = 2 \/ h0 = 3 \/ h0 = 4 \/ h0 = 5 \/
                    h0 = 6 \/ h0 = 7 \/ h0 = 8 \/ h0 = 9 \/ h0 = 10 \/ h0 = 11 \/
                    h0 = 12 \/ h0 = 13 \/ h0 = 14 \/ h0 = 15 \/ h0 = 16 \/
                    h0 = 17 \/ h0 = 18 \/ h0 = 19 \/ h0 = 20 \/ h0 = 21 \/
                    h0 = 22 \/ h0 = 23)%Z) by lia.
  repeat (destruct Hcases as [-> | Hcases]; [vm_compute; repeat split |]).
  subst h0. vm_compute. repeat split.
Qed.


(** ** Ranges of the generated values *)

Lemma traffic_factor_rush (h : Z) :
  (7 <= h <= 9 \/ 17 <= h <= 19)%Z -> traffic_factor h = 1.5.
Proof.
  intros H. unfold traffic_factor.
  assert (E : (((7 <=? h) && (h <=? 9)) || ((17 <=? h) && (h <=? 19)))%Z = true) by lia.
  rewrite E. reflexivity.
Qed.

Lemma traffic_factor_night (h : Z) :
  (22 <= h \/ h <= 5)%Z -> traffic_factor h = 0.6.
Proof.
  intros H. unfold traffic_factor.
  assert (E1 : (((7 <=? h) && (h <=? 9)) || ((17 <=? h) && (h <=? 19)))%Z = false) by lia.
  assert (E2 : ((22 <=? h) || (h <=? 5))%Z = true) by lia.
  rewrite E1, E2. reflexivity.
Qed.

Lemma traffic_factor_normal (h : Z) :
  (h = 6 \/ 10 <= h <= 16 \/ 20 <= h <= 21)%Z -> traffic_factor h = 1.0.
Proof.
  intros H. unfold traffic_factor.
  assert (E1 : (((7 <=? h) && (h <=? 9)) || ((17 <=? h) && (h <=? 19)))%Z = false) by lia.
  assert (E2 : ((22 <=? h) || (h <=? 5))%Z = false) by lia.
  rewrite E1, E2. reflexivity.
Qed.

Lemma classify_high (s : Q) :
  s < 4.0 -> classify s = ("High Emissions", "red")%string.
Proof.
  intros H4. unfold classify.
  assert (H65 : s < 6.5) by lra.
  apply Qle_bool_false_iff in H65. rewrite H65.
  apply Qle_bool_false_iff in H4. rewrite H4. reflexivity.
Qed.

Lemma classify_high_iff (s : Q) :
  classify s = ("High Emissions", "red")%string <-> s < 4.0.
Proof.
  split; [| apply classify_high].
  unfold classify.
  destruct (Qle_bool 6.5 s); [discriminate |].
  destruct (Qle_bool 4.0 s) eqn:E4; [discriminate |].
  intros _. apply Qle_bool_false_iff. exact E4.
Qed.

Lemma classify_moderate (s : Q) :
  4.0 <= s -> s < 6.5 -> classify s = ("Moderate", "yellow")%string.
Proof.
  intros H4 H65. unfold classify.
  apply Qle_bool_false_iff in H65. rewrite H65.
  apply Qle_bool_iff in H4. rewrite H4. reflexivity.
Qed.

Lemma classify_safe (s : Q) :
  6.5 <= s -> classify s = ("Safe", "green")%string.
Proof.
  intros H. unfold classify. apply Qle_bool_iff in H. rewrite H. reflexivity.
Qed.

(** The stored score of the locals made with factor [tf h] and draw [u]. *)
Lemma stored_score_generated (h : Z) (u : Q) (a b : Z) :
  0 <= u <= 1 ->
  a # 100 <= 10 - (125 # 24) * traffic_factor h * noise_of u ->
  10 - (125 # 24) * traffic_factor h * noise_of u <= b # 100 ->
  a # 100
  <= py_round (emission_score (base_co * traffic_factor h * noise_of u)
                              (base_c6h6 * traffic_factor h * noise_of u)
                              (base_nox * traffic_factor h * noise_of u)
                              (base_no2 * traffic_factor h * noise_of u)) 2
  <= b # 100.
Proof.
  intros Hu Ha Hb.
  pose proof (raw_score_generated_bounds h u Hu) as [Hlo Hhi].
  pose proof (raw_score_generated h u) as Hraw.
  unfold emission_score.
  set (raw := raw_score _ _ _ _) in *.
  rewrite py_clamp_inactive by lra.
  apply py_round2_bounds; rewrite Hraw; assumption.
Qed.

Lemma factor_noise_range (h : Z) (u : Q) :
  0 <= u <= 1 -> 0.51 <= traffic_factor h * noise_of u <= 1.725.
Proof.
  intros Hu. apply noise_of_range in Hu. destruct Hu as [Hlo Hhi].
  destruct (traffic_factor_values h) as [-> | [-> | ->]]; split; lra.
Qed.

(** The fields of the entry made from the locals of one iteration. *)
Lemma reading_ranges (e : env) (now : datetime) (i : Z) (p : nat) :
  unit_draws e ->
  1.27 <= co (to_reading (sample_at e now i p)) <= 4.32 /\
  4.08 <= c6h6 (to_reading (sample_at e now i p)) <= 13.8 /\
  102 <= nox (to_reading (sample_at e now i p)) <= 345 /\
  56.1 <= no2 (to_reading (sample_at e now i p)) <= 189.75 /\
  19 <= temp (to_reading (sample_at e now i p)) <= 25 /\
  40 <= rh (to_reading (sample_at e now i p)) <= 60 /\
  1.01 <= score (to_reading (sample_at e now i p)) <= 7.35.
Proof.
  intros Hdraws.
  cbn [co c6h6 nox no2 temp rh score to_reading sample_at
       s_co s_c6h6 s_nox s_no2 s_temp s_rh s_score].
  pose proof (factor_noise_range (dt_hour (now - i * us_per_hour)%Z)
                (draws e p) (Hdraws p)) as [Hlo Hhi].
  pose proof (Hdraws (S p)) as [Ht0 Ht1].
  pose proof (Hdraws (S (S p))) as [Hr0 Hr1].
  assert (Hscore :
            1.01 <= py_round
                      (emission_score
                         (base_co * traffic_factor (dt_hour (now - i * us_per_hour)%Z)
                          * noise_of (draws e p))
                         (base_c6h6 * traffic_factor (dt_hour (now - i * us_per_hour)%Z)
                          * noise_of (draws e p))
                         (base_nox * traffic_factor (dt_hour (now - i * us_per_hour)%Z)
                          * noise_of (draws e p))
                         (base_no2 * traffic_factor (dt_hour (now - i * us_per_hour)%Z)
                          * noise_of (draws e p))) 2 <= 7.35).
  { destruct (stored_score_generated (dt_hour (now - i * us_per_hour)%Z)
                (draws e p) 101 735 (Hdraws p)); [lra | lra | split; lra]. }
  set (tf := traffic_factor _) in *. set (nz := noise_of _) in *.
  split.
  { destruct (py_round2_bounds (base_co * tf * nz) 127 432);
      [unfold base_co; lra | unfold base_co; lra | split; lra]. }
  split.
  { destruct (py_round2_bounds (base_c6h6 * tf * nz) 408 1380);
      [unfold base_c6h6; lra | unfold base_c6h6; lra | split; lra]. }
  split.
  { destruct (py_round2_bounds (base_nox * tf * nz) 10200 34500);
      [unfold base_nox; lra | unfold base_nox; lra | split; lra]. }
  split.
  { destruct (py_round2_bounds (base_no2 * tf * nz) 5610 18975);
      [unfold base_no2; lra | unfold base_no2; lra | split; lra]. }
  split.
  { destruct (py_round1_bounds (base_temp + (-3 + (3 - -3) * draws e (S p))) 190 250);
      [unfold base_temp; lra | unfold base_temp; lra | split; lra]. }
  split.
  { destruct (py_round1_bounds (base_rh + (-10 + (10 - -10) * draws e (S (S p)))) 400 600);
      [unfold base_rh; lra | unfold base_rh; lra | split; lra]. }
  exact Hscore.
Qed.

(** X5. When the draws lie in [0, 1], every generated reading has its
    fields in fixed ranges: co in [1.27, 4.32], c6h6 in [4.08, 13.8], nox in
    [102, 345], no2 in [56.1, 189.75], temp in [19, 25], rh in [40, 60] and
    score in [1.01, 7.35]. *)
Theorem generated_field_ranges (e : env) (hours : Z) (w w' : world)
    (data : list Reading) (k : nat) (r : Reading) :
  unit_draws e ->
  generate_historical_data e hours w = (inr data, w') ->
  nth_error data k = Some r ->
  1.27 <= co r <= 4.32 /\
  4.08 <= c6h6 r <= 13.8 /\
  102 <= nox r <= 345 /\
  56.1 <= no2 r <= 189.75 /\
  19 <= temp r <= 25 /\
  40 <= rh r <= 60 /\
  1.01 <= score r <= 7.35.
Proof.
  intros Hdraws Hrun Hnth.
  destruct (generated_reading e hours w w' data k r Hrun Hnth) as [_ [-> _]].
  apply reading_ranges. exact Hdraws.
Qed.

Lemma unit_draws_no_model : unit_draws env_no_model.
Proof. intros n. vm_compute. split; discriminate. Qed.

Lemma generated_field_ranges_witness :
  102 <= nox (to_reading (sample_at env_no_model sample_now 3 0)) <= 345 /\
  40 <= rh (to_reading (sample_at env_no_model sample_now 3 0)) <= 60.
Proof.
  destruct (generated_field_ranges env_no_model 3%Z world0
              (after_draws 9 (after_clock world0))
              (readings_at env_no_model sample_now 3 0 0 3) 0%nat
              (to_reading (sample_at env_no_model sample_now 3 0)))
    as [_ [_ [Hnox [_ [_ [Hrh _]]]]]].
  - exact unit_draws_no_model.
  - vm_compute. reflexivity.
  - vm_compute. reflexivity.
  - split; assumption.
Defined.

(** The status of the entry of one iteration, by the traffic factor. *)
Lemma reading_status (e : env) (now : datetime) (i : Z) (p : nat) :
  unit_draws e ->
  (traffic_factor (dt_hour (now - i * us_per_hour)%Z) = 1.5 ->
   classify (score (to_reading (sample_at e now i p)))
   = ("High Emissions", "red")%string) /\
  (traffic_factor (dt_hour (now - i * us_per_hour)%Z) = 1.0 ->
   classify (score (to_reading (sample_at e now i p)))
   = ("Moderate", "yellow")%string) /\
  (traffic_factor (dt_hour (now - i * us_per_hour)%Z) = 0.6 ->
   6.4 <= score (to_reading (sample_at e now i p))).
Proof.
  intros Hdraws.
  cbn [score to_reading sample_at s_score].
  pose proof (noise_of_range _ (Hdraws p)) as [Hlo Hhi].
  split; [| split]; intros Htf.
  - destruct (stored_score_generated (dt_hour (now - i * us_per_hour)%Z)
                (draws e p) 101 336 (Hdraws p)) as [_ Hb];
      [rewrite Htf; lra | rewrite Htf; lra |].
    apply classify_high. lra.
  - destruct (stored_score_generated (dt_hour (now - i * us_per_hour)%Z)
                (draws e p) 401 558 (Hdraws p)) as [Ha Hb];
      [rewrite Htf; lra | rewrite Htf; lra |].
    apply classify_moderate; lra.
  - destruct (stored_score_generated (dt_hour (now - i * us_per_hour)%Z)
                (draws e p) 640 735 (Hdraws p)) as [Ha _];
      [rewrite Htf; lra | rewrite Htf; lra |].
    lra.
Qed.

(** X6. When the draws lie in [0, 1], the status of a generated reading
    follows from the hour of the day of its timestamp: in the rush hours
    (7-9, 17-19) it is always High Emissions/red, in the hours with factor
    1.0 (6, 10-16, 20-21) always Moderate/yellow, and at night (22-5) never
    High Emissions. *)
Theorem generated_status_by_hour (e : env) (hours : Z) (w w' : world)
    (data : list Reading) (k : nat) (r : Reading) :
  unit_draws e ->
  generate_historical_data e hours w = (inr data, w') ->
  nth_error data k = Some r ->
  ((7 <= hour_at (clock e (clock_pos w)) (hours - Z.of_nat k) <= 9
    \/ 17 <= hour_at (clock e (clock_pos w)) (hours - Z.of_nat k) <= 19)%Z ->
   classify (score r) = ("High Emissions", "red")%string) /\
  ((hour_at (clock e (clock_pos w)) (hours - Z.of_nat k) = 6
    \/ 10 <= hour_at (clock e (clock_pos w)) (hours - Z.of_nat k) <= 16
    \/ 20 <= hour_at (clock e (clock_pos w)) (hours - Z.of_nat k) <= 21)%Z ->
   classify (score r) = ("Moderate", "yellow")%string) /\
  ((22 <= hour_at (clock e (clock_pos w)) (hours - Z.of_nat k)
    \/ hour_at (clock e (clock_pos w)) (hours - Z.of_nat k) <= 5)%Z ->
   classify (score r) <> ("High Emissions", "red")%string) /\
  timestamp r
  = strftime_full (clock e (clock_pos w) - (hours - Z.of_nat k) * us_per_hour)%Z.
Proof.
  intros Hdraws Hrun Hnth.
  destruct (generated_reading e hours w w' data k r Hrun Hnth) as [_ [-> _]].
  destruct (reading_status e (clock e (clock_pos w)) (hours - Z.of_nat k)
              (3 * k + rng_pos w) Hdraws) as [Hrush [Hnormal Hnight]].
  unfold hour_at.
  split; [| split; [| split]]; [| | | reflexivity].
  - intros H. apply Hrush. apply traffic_factor_rush. exact H.
  - intros H. apply Hnormal. apply traffic_factor_normal. exact H.
  - intros H.
    pose proof (Hnight (traffic_factor_night _ H)) as Hs.
    clear Hrush Hnormal Hnight.
    set (sc := score _) in *. clearbody sc.
    intros Hc. rewrite classify_high_iff in Hc. lra.
Qed.

Ltac eval_hour_at :=
  repeat match goal with
         | |- context [hour_at ?a ?b] =>
             let v := eval vm_compute in (hour_at a b) in
             change (hour_at a b) with v
         end.

Lemma generated_status_by_hour_witness :
  classify (score (to_reading (sample_at env_no_model sample_now 1 0)))
  = ("High Emissions", "red")%string /\
  classify (score (to_reading (sample_at env_no_model sample_now 3 0)))
  = ("Moderate", "yellow")%string /\
  classify (score (to_reading (sample_at env_no_model sample_now 20 0)))
  <> ("High Emissions", "red")%string.
Proof.
  split; [| split].
  - destruct (generated_status_by_hour env_no_model 1%Z world0
                (after_draws 3 (after_clock world0))
                (readings_at env_no_model sample_now 1 0 0 1) 0%nat
                (to_reading (sample_at env_no_model sample_now 1 0)))
      as [Hrush _].
    + exact unit_draws_no_model.
    + vm_compute. reflexivity.
    + vm_compute. reflexivity.
    + apply Hrush. eval_hour_at. lia.
  - destruct (generated_status_by_hour env_no_model 3%Z world0
                (after_draws 9 (after_clock world0))
                (readings_at env_no_model sample_now 3 0 0 3) 0%nat
                (to_reading (sample_at env_no_model sample_now 3 0)))
      as [_ [Hnormal _]].
    + exact unit_draws_no_model.
    + vm_compute. reflexivity.
    + vm_compute. reflexivity.
    + apply Hnormal. eval_hour_at. lia.
  - destruct (generated_status_by_hour env_no_model 20%Z world0
                (after_draws 60 (after_clock world0))
                (readings_at env_no_model sample_now 20 0 0 20) 0%nat
                (to_reading (sample_at env_no_model sample_now 20 0)))
      as [_ [_ [Hnight _]]].
    + exact unit_draws_no_model.
    + vm_compute. reflexivity.
    + vm_compute. reflexivity.
    + apply Hnight. eval_hour_at. lia.
Defined.

(** The timestamps of the locals of a day-long run, counted by factor. *)
Lemma day_samples_count (e : env) (now : datetime) (p : nat) (f : Q) :
  List.length
    (filter (fun s => Qeq_bool (traffic_factor (dt_hour (s_timestamp s))) f)
            (map (fun k => sample_at e now (24 - Z.of_nat k) (3 * k + p))
                 (seq 0 24)))
  = day_count_hours (dt_hour now) f.
Proof.
  rewrite filter_map_swap, length_map. unfold day_count_hours. f_equal.
  apply filter_ext. intros k.
  cbn [s_timestamp sample_at]. rewrite dt_hour_sub. reflexivity.
Qed.

(** The status against the factor, for any score with the facts of
    [reading_status]. *)
Lemma high_iff_rush_aux (sc : Q) (tf : Q) :
  (tf = 1.5 -> classify sc = ("High Emissions", "red")%string) ->
  (tf = 1.0 -> classify sc = ("Moderate", "yellow")%string) ->
  (tf = 0.6 -> 6.4 <= sc) ->
  tf = 1.5 \/ tf = 0.6 \/ tf = 1.0 ->
  String.eqb (fst (classify sc)) "High Emissions" = Qeq_bool tf 1.5.
Proof.
  intros Hrush Hnormal Hnight [E | [E | E]]; subst tf.
  - rewrite (Hrush eq_refl). reflexivity.
  - specialize (Hnight eq_refl).
    assert (Hnot : classify sc <> ("High Emissions", "red")%string).
    { intros Hc. apply classify_high_iff in Hc. lra. }
    unfold classify in *.
    destruct (Qle_bool 6.5 sc); [reflexivity |].
    destruct (Qle_bool 4.0 sc); [reflexivity |].
    exfalso. apply Hnot. reflexivity.
  - rewrite (Hnormal eq_refl). reflexivity.
Qed.

(** A generated entry is High Emissions exactly when its iteration used the
    rush-hour factor. *)
Lemma high_iff_rush (e : env) (now : datetime) (i : Z) (p : nat) :
  unit_draws e ->
  String.eqb (fst (classify (score (to_reading (sample_at e now i p)))))
             "High Emissions"
  = Qeq_bool (traffic_factor (dt_hour (now - i * us_per_hour)%Z)) 1.5.
Proof.
  intros Hdraws.
  destruct (reading_status e now i p Hdraws) as [Hrush [Hnormal Hnight]].
  apply high_iff_rush_aux; try assumption.
  apply traffic_factor_values.
Qed.

(** X4. In every successful day-long run (the one the endpoint asks for)
    the 24 iterations meet every hour of the day once: of the locals
    computed by the loop exactly 6 use the rush-hour factor 1.5, exactly 8
    the night factor 0.6 and exactly 10 the factor 1.0; and when the draws
    lie in [0, 1] exactly 6 of the 24 readings returned classify as
    High Emissions. *)
Theorem day_traffic_counts (e : env) (w w' : world) (data : list Reading) :
  generate_historical_data e 24 w = (inr data, w') ->
  exists samples : list Sample,
    data = map to_reading samples /\
    List.length samples = 24%nat /\
    (forall k s, nth_error samples k = Some s ->
       sample_hour e (clock e (clock_pos w)) (24 - Z.of_nat k)
                   (after_draws (3 * k) (after_clock w))
       = (inr s, after_draws (3 * S k) (after_clock w))) /\
    List.length
      (filter (fun s => Qeq_bool (traffic_factor (dt_hour (s_timestamp s))) 1.5)
              samples) = 6%nat /\
    List.length
      (filter (fun s => Qeq_bool (traffic_factor (dt_hour (s_timestamp s))) 0.6)
              samples) = 8%nat /\
    List.length
      (filter (fun s => Qeq_bool (traffic_factor (dt_hour (s_timestamp s))) 1.0)
              samples) = 10%nat /\
    (unit_draws e ->
     List.length
       (filter (fun r => String.eqb (fst (classify (score r))) "High Emissions")
               data) = 6%nat).
Proof.
  intros Hrun.
  destruct (generate_cases e 24 w) as [[msg [w1 [E _]]] | [E Hall]];
    rewrite E in Hrun; [discriminate |].
  injection Hrun as <- <-.
  change (Z.to_nat 24) with 24%nat in *.
  set (now := clock e (clock_pos w)) in *.
  destruct (day_count_hours_values (dt_hour now) (dt_hour_range now))
    as [H15 [H06 H10]].
  exists (map (fun k => sample_at e now (24 - Z.of_nat k) (3 * k + rng_pos w))
              (seq 0 24)).
  split; [unfold readings_at; rewrite map_map; reflexivity |].
  split; [rewrite length_map, length_seq; reflexivity |].
  split.
  { intros k s Hk. rewrite nth_error_map, nth_error_seq in Hk.
    destruct (k <? 24)%nat eqn:Hlt; [| discriminate].
    apply Nat.ltb_lt in Hlt. cbn [option_map Nat.add] in Hk.
    injection Hk as <-.
    rewrite (sample_hour_ok _ _ _ _ (Hall k Hlt)), after_draws_add.
    f_equal. f_equal. lia. }
  split; [rewrite day_samples_count; exact H15 |].
  split; [rewrite day_samples_count; exact H06 |].
  split; [rewrite day_samples_count; exact H10 |].
  intros Hdraws. unfold readings_at.
  rewrite filter_map_swap, length_map.
  rewrite <- H15. unfold day_count_hours. f_equal.
  apply filter_ext. intros k.
  rewrite (high_iff_rush e now (24 - Z.of_nat k) (3 * k + rng_pos w) Hdraws).
  rewrite dt_hour_sub. reflexivity.
Qed.

Lemma day_traffic_counts_witness :
  List.length
    (filter (fun r => String.eqb (fst (classify (score r))) "High Emissions")
            (readings_at env_no_model sample_now 24 0 0 24)) = 6%nat.
Proof.
  destruct (day_traffic_counts env_no_model world0
              (after_draws 72 (after_clock world0))
              (readings_at env_no_model sample_now 24 0 0 24))
    as [samples [_ [_ [_ [_ [_ [_ Hhigh]]]]]]].
  - vm_compute. reflexivity.
  - apply Hhigh. exact unit_draws_no_model.
Defined.

(** The NOx of a generated reading, under draws in [0, 1]. *)
Lemma generated_field_ranges_aux (e : env) (hours : Z) (w w' : world)
    (data : list Reading) (k : nat) (r : Reading) :
  unit_draws e ->
  generate_historical_data e hours w = (inr data, w') ->
  nth_error data k = Some r ->
  102 <= nox r /\ 1.01 <= score r <= 7.35.
Proof.
  intros Hdraws Hrun Hnth.
  destruct (generated_reading e hours w w' data k r Hrun Hnth) as [_ [-> _]].
  destruct (reading_ranges e (clock e (clock_pos w)) (hours - Z.of_nat k)
              (3 * k + rng_pos w) Hdraws) as [_ [_ [[Hnox _] [_ [_ [_ Hs]]]]]].
  split; assumption.
Qed.

(** X7. When the draws lie in [0, 1], the stored NOx of a generated reading
    is positive, so for such a current reading the guard of the NO2/NOx
    ratio always takes the division: the ratio is [no2 / nox] and the last
    feature of [prepare_features] is that quotient, never the fallback 0. *)
Theorem generated_ratio_divides (e : env) (hours : Z) (w w' : world)
    (data : list Reading) (k : nat) (r : Reading) (now : datetime) :
  unit_draws e ->
  generate_historical_data e hours w = (inr data, w') ->
  nth_error data k = Some r ->
  0 < nox r /\
  no2_nox_ratio (current_data_of r now) = inr (no2 r / nox r) /\
  forall (lag_data : LagData) (rolling_3h rolling_6h : Rolling),
    exists row : list Q,
      prepare_features (current_data_of r now) lag_data rolling_3h rolling_6h
      = inr [row] /\
      nth_error row 15 = Some (no2 r / nox r).
Proof.
  intros Hdraws Hrun Hnth.
  destruct (generated_field_ranges_aux e hours w w' data k r Hdraws Hrun Hnth)
    as [Hnox _].
  assert (Hpos : 0 < nox r) by lra.
  assert (Hb : Qlt_bool 0 (cur_nox (current_data_of r now)) = true).
  { apply Qlt_bool_iff. exact Hpos. }
  split; [exact Hpos |]. split.
  - rewrite no2_nox_ratio_value, Hb. reflexivity.
  - intros lag_data rolling_3h rolling_6h.
    rewrite prepare_features_value, Hb.
    eexists. split; reflexivity.
Qed.

Lemma generated_ratio_divides_witness :
  no2_nox_ratio
    (current_data_of (to_reading (sample_at env_no_model sample_now 3 0)) sample_now)
  = inr (no2 (to_reading (sample_at env_no_model sample_now 3 0))
         / nox (to_reading (sample_at env_no_model sample_now 3 0))).
Proof.
  destruct (generated_ratio_divides env_no_model 3%Z world0
              (after_draws 9 (after_clock world0))
              (readings_at env_no_model sample_now 3 0 0 3) 0%nat
              (to_reading (sample_at env_no_model sample_now 3 0)) sample_now)
    as [_ [Hratio _]].
  - exact unit_draws_no_model.
  - vm_compute. reflexivity.
  - vm_compute. reflexivity.
  - exact Hratio.
Defined.



(** ** More on the scoring pipeline *)




(** X10. With both artifacts and at least six readings: when
    [scaler.transform] raises, the exception leaves the pipeline and
    [model.predict] is never called; when [model.predict] raises, its
    exception leaves the pipeline; when it returns an empty array, indexing
    it raises [IndexError]. No random number is drawn on these paths. *)
Theorem scoring_artifact_failures (e : env) (init : list Reading)
    (current : Reading) (w : world) (m : predictor) (s : transformer) :
  (6 <= List.length (init ++ [current]))%nat ->
  model e = Some m -> scaler e = Some s ->
  exists (lag_data : Reading) (features : matrix),
    index_from_end (init ++ [current]) 2 = inr lag_data /\
    features_of (init ++ [current]) current lag_data (clock e (clock_pos w))
    = inr features /\
    (forall ex, s features = inl ex ->
       exists w',
         scoring e (init ++ [current]) w = (inl ex, w') /\
         calls w' = calls w ++ [CallTransform features] /\
         rng_pos w' = rng_pos w) /\
    (forall scaled ex, s features = inr scaled -> m scaled = inl ex ->
       exists w',
         scoring e (init ++ [current]) w = (inl ex, w') /\
         calls w' = calls w ++ [CallTransform features; CallPredict scaled] /\
         rng_pos w' = rng_pos w) /\
    (forall scaled, s features = inr scaled -> m scaled = inr [] ->
       exists w',
         scoring e (init ++ [current]) w
         = (inl (IndexError "index 0 is out of bounds for axis 0 with size 0"), w') /\
         calls w' = calls w ++ [CallTransform features; CallPredict scaled] /\
         rng_pos w' = rng_pos w).
Proof.
  intros Hlen Hm Hs.
  destruct (index_from_end_second (init ++ [current])) as [lag Hlag]; [lia |].
  exists lag.
  pose proof (predict_score_model e (init ++ [current]) current lag w m s
                Hlen Hm Hs Hlag) as Hrun.
  unfold features_of in *. rewrite prepare_features_value in *.
  cbv zeta in Hrun.
  eexists. split; [exact Hlag |]. split; [reflexivity |].
  split; [| split].
  - intros ex Hex. rewrite scoring_run, Hrun, Hex.
    eexists. split; [reflexivity |]. split; reflexivity.
  - intros scaled ex Hsc Hex. rewrite scoring_run, Hrun, Hsc, Hex.
    eexists. split; [reflexivity |].
    split; [cbn [calls]; rewrite <- app_assoc; reflexivity | reflexivity].
  - intros scaled Hsc Hex. rewrite scoring_run, Hrun, Hsc, Hex.
    cbn [index_first].
    eexists. split; [reflexivity |].
    split; [cbn [calls]; rewrite <- app_assoc; reflexivity | reflexivity].
Qed.

Lemma scoring_artifact_failures_witness :
  (exists w',
     scoring env_bad_scaler (repeat clean_reading 5 ++ [clean_reading]) world0
     = (inl (ExternalError "X has 16 features, but StandardScaler is expecting 12 features as input."), w')
     /\ List.length (calls w') = 1%nat) /\
  (exists w',
     scoring env_empty_prediction (repeat clean_reading 5 ++ [clean_reading]) world0
     = (inl (IndexError "index 0 is out of bounds for axis 0 with size 0"), w')).
Proof.
  split.
  - destruct (scoring_artifact_failures env_bad_scaler (repeat clean_reading 5)
                clean_reading world0
                (fun _ => inr [7.2])
                (fun _ => inl (ExternalError "X has 16 features, but StandardScaler is expecting 12 features as input.")))
      as [lag [features [_ [_ [Hscale _]]]]].
    + simpl. lia.
    + reflexivity.
    + reflexivity.
    + destruct (Hscale _ eq_refl) as [w' [E [Hc _]]].
      exists w'. split; [exact E | rewrite Hc; reflexivity].
  - destruct (scoring_artifact_failures env_empty_prediction
                (repeat clean_reading 5) clean_reading world0
                (fun _ => inr []) (fun x => inr x))
      as [lag [features [_ [_ [_ [_ Hempty]]]]]].
    + simpl. lia.
    + reflexivity.
    + reflexivity.
    + destruct (Hempty features eq_refl eq_refl) as [w' [E _]].
      exists w'. exact E.
Defined.

(** X11. Whatever the readings and the artifacts, one run of the pipeline
    logs no call, or one call of [scaler.transform] that raised, or one call
    of [scaler.transform] followed by one call of [model.predict] on the
    array the scaler returned: neither is called twice, and the model never
    without a successful transform before it. *)
Theorem scoring_call_discipline (e : env) (historical : list Reading) (w : world) :
  calls (snd (scoring e historical w)) = calls w
  \/ (exists (s : transformer) (features : matrix) (ex : exn),
         scaler e = Some s /\ s features = inl ex /\
         calls (snd (scoring e historical w))
         = calls w ++ [CallTransform features])
  \/ (exists (s : transformer) (features scaled : matrix),
         scaler e = Some s /\ s features = inr scaled /\
         calls (snd (scoring e historical w))
         = calls w ++ [CallTransform features; CallPredict scaled]).
Proof.
  destruct historical as [| current init _] using rev_ind; [left; reflexivity |].
  destruct (Nat.lt_ge_cases (List.length (init ++ [current])) 6) as [Hlt | Hge].
  { left. destruct (scoring_fallback e init current w (or_introl Hlt))
      as [w' [E Hc]].
    rewrite E. exact Hc. }
  destruct (model e) as [m |] eqn:Hm.
  2:{ left. destruct (scoring_fallback e init current w (or_intror (or_introl Hm)))
        as [w' [E Hc]].
      rewrite E. exact Hc. }
  destruct (scaler e) as [s |] eqn:Hs.
  2:{ left. destruct (scoring_fallback e init current w (or_intror (or_intror Hs)))
        as [w' [E Hc]].
      rewrite E. exact Hc. }
  destruct (index_from_end_second (init ++ [current])) as [lag Hlag]; [lia |].
  pose proof (predict_score_model e (init ++ [current]) current lag w m s
                Hge Hm Hs Hlag) as Hrun.
  unfold features_of in Hrun. rewrite prepare_features_value in Hrun.
  cbv zeta in Hrun. rewrite scoring_run, Hrun.
  match goal with
  | |- context [s ?f] => set (features := f)
  end.
  destruct (s features) as [ex | scaled] eqn:Hsf.
  - right. left. exists s, features, ex. repeat split. exact Hsf.
  - right. right. exists s, features, scaled.
    split; [reflexivity |]. split; [exact Hsf |].
    destruct (m scaled) as [ex | predictions];
      [cbn [snd calls]; rewrite <- app_assoc; reflexivity |].
    destruct (index_first predictions);
      cbn [snd calls]; rewrite <- app_assoc; reflexivity.
Qed.

(** ** More on the endpoint *)

(** The last reading of a day-long run. *)
Lemma generated_last (e : env) (w w1 : world) (historical : list Reading) :
  generate_historical_data e 24 w = (inr historical, w1) ->
  exists (init : list Reading) (current : Reading),
    historical = init ++ [current] /\
    List.length init = 23%nat /\
    nth_error historical 23 = Some current /\
    rng_pos w1 = (72 + rng_pos w)%nat.
Proof.
  intros Hgen.
  pose proof (generate_inr_length e 24 w w1 historical Hgen) as Hlen.
  assert (Hw : rng_pos w1 = (72 + rng_pos w)%nat).
  { destruct (generate_cases e 24 w) as [[msg [w' [E _]]] | [E _]];
      rewrite E in Hgen; [discriminate |].
    injection Hgen as _ <-. reflexivity. }
  destruct historical as [| current init _] using rev_ind; [discriminate |].
  rewrite length_app in Hlen. cbn [List.length] in Hlen.
  change (Z.to_nat 24) with 24%nat in Hlen.
  exists init, current. split; [reflexivity |].
  split; [lia |]. split; [| exact Hw].
  rewrite nth_error_app2 by lia.
  replace (23 - List.length init)%nat with 0%nat by lia. reflexivity.
Qed.

(** The jittered score stays inside the interval when the score does. *)
Lemma fallback_range (sc u : Q) :
  1.01 <= sc <= 7.35 -> 0 <= u <= 1 ->
  0.909 <= sc * (0.9 + (1.1 - 0.9) * u) <= 8.085.
Proof.
  intros [Hs0 Hs1] [Hu0 Hu1].
  set (j := 0.9 + (1.1 - 0.9) * u).
  assert (Hj : 0.9 <= j <= 1.1) by (unfold j; split; lra).
  destruct Hj as [Hj0 Hj1].
  assert (H1 : 0 <= (sc - 1.01) * (j - 0.9)).
  { apply Qmult_le_0_compat; lra. }
  assert (H2 : 0 <= (7.35 - sc) * (1.1 - j)).
  { apply Qmult_le_0_compat; lra. }
  assert (H3 : 0 <= (7.35 - sc) * (j - 0.9)).
  { apply Qmult_le_0_compat; lra. }
  assert (H4 : 0 <= (sc - 1.01) * (1.1 - j)).
  { apply Qmult_le_0_compat; lra. }
  split; lra.
Qed.

(** X12. When the draws lie in [0, 1], every predicted score the endpoint
    computes lies in [0, 10], on the clamped model path and on the
    unclamped fallback path alike: on generated data the fallback
    [current.score * U(0.9, 1.1)] stays within [0.909, 8.085]. *)
Theorem endpoint_prediction_range (e : env) (w w1 w2 : world)
    (historical : list Reading) (current : Reading) (predicted : Q) :
  unit_draws e ->
  generate_historical_data e 24 w = (inr historical, w1) ->
  scoring e historical w1 = (inr (current, predicted), w2) ->
  0 <= predicted <= 10 /\
  0 <= py_round predicted 2 <= 10 /\
  (model e = None \/ scaler e = None -> 0.909 <= predicted <= 8.085).
Proof.
  intros Hdraws Hgen Hsc.
  destruct (generated_last e w w1 historical Hgen)
    as [init [last [-> [Hlen [Hnth _]]]]].
  destruct (generated_field_ranges_aux e 24 w w1 _ 23 last Hdraws Hgen Hnth)
    as [_ Hscore].
  assert (Hfb : forall w', fallback_score e last w' = (inr predicted, w2) ->
                           0.909 <= predicted <= 8.085).
  { intros w' Hf. rewrite fallback_score_run in Hf. injection Hf as <- _.
    apply fallback_range; [exact Hscore | apply Hdraws]. }
  assert (Hge : (6 <= List.length (init ++ [last]))%nat).
  { rewrite length_app. simpl. lia. }
  rewrite scoring_run in Hsc.
  assert (Hmain : 0 <= predicted <= 10 /\
                  (model e = None \/ scaler e = None -> 0.909 <= predicted <= 8.085)).
  { destruct (model e) as [m |] eqn:Hm.
    2:{ rewrite (predict_score_no_artifact e _ last w1 Hge (or_introl Hm)) in Hsc.
        destruct (fallback_score e last (after_clock w1)) as [[ex | p] w'] eqn:Hf;
          [discriminate |].
        injection Hsc as _ <- <-.
        pose proof (Hfb _ Hf) as [H0 H1]. split; [split; lra | intros _; split; assumption]. }
    destruct (scaler e) as [s |] eqn:Hs.
    2:{ rewrite (predict_score_no_artifact e _ last w1 Hge (or_intror Hs)) in Hsc.
        destruct (fallback_score e last (after_clock w1)) as [[ex | p] w'] eqn:Hf;
          [discriminate |].
        injection Hsc as _ <- <-.
        pose proof (Hfb _ Hf) as [H0 H1]. split; [split; lra | intros _; split; assumption]. }
    destruct (index_from_end_second (init ++ [last])) as [lag Hlag]; [lia |].
    rewrite (predict_score_model e _ last lag w1 m s Hge Hm Hs Hlag) in Hsc.
    split; [| intros [H | H]; discriminate].
    destruct (features_of (init ++ [last]) last lag (clock e (clock_pos w1)))
      as [ex | features]; [discriminate |].
    cbv zeta in Hsc.
    destruct (s features) as [ex | scaled]; [discriminate |].
    destruct (m scaled) as [ex | predictions]; [discriminate |].
    destruct (index_first predictions) as [ex | p]; [discriminate |].
    injection Hsc as _ <- _. apply py_clamp_range. }
  destruct Hmain as [Hrange Hfall].
  split; [exact Hrange |]. split; [apply py_round2_range; exact Hrange | exact Hfall].
Qed.

Lemma endpoint_prediction_range_witness :
  exists (current : Reading) (predicted : Q),
    fst (scoring env_no_model (readings_at env_no_model sample_now 24 0 0 24)
                 (after_draws 72 (after_clock world0)))
    = inr (current, predicted) /\
    0 <= predicted <= 10.
Proof.
  destruct (scoring env_no_model (readings_at env_no_model sample_now 24 0 0 24)
                    (after_draws 72 (after_clock world0)))
    as [[ex | [current predicted]] w2] eqn:E.
  - vm_compute in E. discriminate.
  - exists current, predicted. split; [reflexivity |].
    destruct (endpoint_prediction_range env_no_model world0
                (after_draws 72 (after_clock world0)) w2
                (readings_at env_no_model sample_now 24 0 0 24)
                current predicted) as [Hrange _].
    + exact unit_draws_no_model.
    + vm_compute. reflexivity.
    + exact E.
    + exact Hrange.
Defined.

Lemma success_body_current (historical : list Reading) (current : Reading)
    (predicted_score : Q) :
  exists cur_fields pred_fields : list (string * json),
    success_body historical current predicted_score
    = JObj [ ("success", JBool true);
             ("current", JObj cur_fields);
             ("prediction", JObj pred_fields);
             ("historical",
              JList (map (fun h => JObj [ ("time", JStr (hour h));
                                          ("score", JNum (score h)) ])
                         historical)) ]%string /\
    assoc "score" cur_fields = Some (JNum (py_round (score current) 2)) /\
    assoc "timestamp" cur_fields = Some (JStr (timestamp current)).
Proof.
  unfold success_body.
  destruct (classify (score current)) as [status color].
  destruct (classify predicted_score) as [pred_status pred_color].
  eexists. eexists. split; [reflexivity |]. split; reflexivity.
Qed.

(** X13. In every successful answer the current reading is the last entry of
    the history: it is stamped one hour before the clock value the generator
    read (not at that instant), the score reported under ["current"] is its
    stored score unchanged by the second rounding, and the last item of
    ["historical"] carries the same score. *)
Theorem endpoint_current_is_last (e : env) (w w1 w2 : world)
    (historical : list Reading) (current : Reading) (predicted : Q) :
  generate_historical_data e 24 w = (inr historical, w1) ->
  scoring e historical w1 = (inr (current, predicted), w2) ->
  exists (init : list Reading) (cur_fields pred_fields : list (string * json))
         (items : list json),
    historical = init ++ [current] /\
    List.length init = 23%nat /\
    timestamp current
    = strftime_full (clock e (clock_pos w) - 1 * us_per_hour)%Z /\
    py_round (score current) 2 = score current /\
    refresh_data e w
    = ((JObj [ ("success", JBool true);
               ("current", JObj cur_fields);
               ("prediction", JObj pred_fields);
               ("historical", JList items) ]%string, 200%Z), w2) /\
    assoc "score" cur_fields = Some (JNum (score current)) /\
    assoc "timestamp" cur_fields
    = Some (JStr (strftime_full (clock e (clock_pos w) - 1 * us_per_hour)%Z)) /\
    last items (JBool false)
    = JObj [ ("time", JStr (hour current)); ("score", JNum (score current)) ]%string.
Proof.
  intros Hgen Hsc.
  destruct (generated_last e w w1 historical Hgen)
    as [init [lst [Hhist [Hlen [Hnth _]]]]].
  assert (Hcur : current = lst).
  { subst historical. rewrite scoring_run in Hsc.
    destruct (predict_score e (init ++ [lst]) lst w1) as [[ex | p] w'];
      [discriminate |].
    injection Hsc as <- _ _. reflexivity. }
  subst lst.
  destruct (generated_reading e 24 w w1 historical 23 current Hgen Hnth)
    as [_ [Hr _]].
  assert (Hts : timestamp current
                = strftime_full (clock e (clock_pos w) - 1 * us_per_hour)%Z).
  { rewrite Hr. reflexivity. }
  assert (Hround : py_round (score current) 2 = score current).
  { rewrite Hr. cbn [score to_reading]. apply py_round2_idempotent. }
  destruct (success_body_current historical current predicted)
    as [cf [pf [Hbody [Hscore Hstamp]]]].
  exists init, cf, pf,
    (map (fun h => JObj [ ("time", JStr (hour h)); ("score", JNum (score h)) ]%string)
         historical).
  split; [exact Hhist |]. split; [exact Hlen |].
  split; [exact Hts |]. split; [exact Hround |].
  split.
  { unfold refresh_data. rewrite refresh_try_run, Hgen, Hsc.
    cbn [fst snd]. rewrite Hbody. reflexivity. }
  split; [rewrite Hscore, Hround; reflexivity |].
  split; [rewrite Hstamp, Hts; reflexivity |].
  rewrite Hhist, map_app. cbn [map]. apply last_last.
Qed.

Lemma endpoint_current_is_last_witness :
  exists (current : Reading) (predicted : Q),
    fst (scoring env_stub (readings_at env_stub sample_now 24 0 0 24)
                 (after_draws 72 (after_clock world0)))
    = inr (current, predicted) /\
    timestamp current = "2026-11-03 17:55:00"%string /\
    py_round (score current) 2 = score current.
Proof.
  destruct (scoring env_stub (readings_at env_stub sample_now 24 0 0 24)
                    (after_draws 72 (after_clock world0)))
    as [[ex | [current predicted]] w2] eqn:E.
  - vm_compute in E. discriminate.
  - exists current, predicted. split; [reflexivity |].
    destruct (endpoint_current_is_last env_stub world0
                (after_draws 72 (after_clock world0)) w2
                (readings_at env_stub sample_now 24 0 0 24)
                current predicted)
      as [init [cf [pf [items [_ [_ [Hts [Hround _]]]]]]]].
    + vm_compute. reflexivity.
    + exact E.
    + split; [rewrite Hts; vm_compute; reflexivity | exact Hround].
Defined.

(** ** Startup *)

(** Without one of the artifacts the pipeline logs no call, whatever the
    readings. *)
Lemma scoring_no_artifact_calls (e : env) (historical : list Reading) (w : world) :
  model e = None \/ scaler e = None ->
  calls (snd (scoring e historical w)) = calls w.
Proof.
  intros Hnone.
  destruct historical as [| current init _] using rev_ind; [reflexivity |].
  destruct (scoring_fallback e init current w (or_intror Hnone)) as [w' [E Hc]].
  rewrite E. exact Hc.
Qed.

(** X14. The two artifacts are loaded together or not at all: after startup
    the model is absent exactly when the scaler is, both are present exactly
    when both loads succeeded, and when either load raised no request ever
    calls [scaler.transform] or [model.predict]. *)
Theorem startup_both_or_neither (load_model : exn + predictor)
    (load_scaler : exn + transformer) :
  (fst (load_artifacts load_model load_scaler) = None
   <-> snd (load_artifacts load_model load_scaler) = None) /\
  (forall m s, load_model = inr m -> load_scaler = inr s ->
               load_artifacts load_model load_scaler = (Some m, Some s)) /\
  ((exists ex, load_model = inl ex) \/ (exists ex, load_scaler = inl ex) ->
   load_artifacts load_model load_scaler = (None, None) /\
   forall (random_values : nat -> Q) (clock_values : nat -> datetime)
          (w : world),
     calls (snd (refresh_data
                   (env_after_startup random_values clock_values
                                      load_model load_scaler) w))
     = calls w).
Proof.
  split; [| split].
  - unfold load_artifacts.
    destruct load_model as [ex | m]; [split; reflexivity |].
    destruct load_scaler as [ex | s]; [split; reflexivity |].
    split; discriminate.
  - intros m s -> ->. reflexivity.
  - intros Hfail.
    assert (Hnone : load_artifacts load_model load_scaler = (None, None)).
    { unfold load_artifacts.
      destruct load_model as [ex | m]; [reflexivity |].
      destruct load_scaler as [ex | s]; [reflexivity |].
      destruct Hfail as [[ex H] | [ex H]]; discriminate. }
    split; [exact Hnone |].
    intros random_values clock_values w.
    set (e := env_after_startup random_values clock_values load_model load_scaler).
    assert (Hm : model e = None \/ scaler e = None).
    { left. unfold e, env_after_startup. cbn [model]. rewrite Hnone. reflexivity. }
    unfold refresh_data. rewrite refresh_try_run.
    destruct (generate_cases e 24 w) as [[msg [w1 [E Hc]]] | [E _]]; rewrite E.
    + exact Hc.
    + pose proof (scoring_no_artifact_calls e
                    (readings_at e (clock e (clock_pos w)) 24 (rng_pos w) 0 (Z.to_nat 24))
                    (after_draws (3 * Z.to_nat 24) (after_clock w)) Hm) as Hcalls.
      destruct (scoring e _ _) as [[ex | r] w2]; exact Hcalls.
Qed.

Lemma startup_both_or_neither_witness :
  load_artifacts (inr (fun _ => inr [7.2]))
                 (inl (ExternalError "No such file or directory: 'models/scaler.pkl'"))
  = (None, None).
Proof.
  destruct (startup_both_or_neither
              (inr (fun _ => inr [7.2]))
              (inl (ExternalError "No such file or directory: 'models/scaler.pkl'")))
    as [_ [_ Hfail]].
  destruct Hfail as [Hnone _]; [right; eexists; reflexivity |].
  exact Hnone.
Defined.
